(** * Notion Lite quick-capture clients

    A shallow embedding of the three capture scripts of the repository

    - [quick-capture-client.py]  ([send_to_notion_lite]),
    - [working-capture.py]       ([capture_to_notion_lite]),
    - [test-capture.py]          ([test_capture]),

    together with the properties of the capture request/response contract,
    and, after them, the helpers and script bodies around those functions
    ([test_api_status], [run_all_tests], [on_capture], the two [__main__]
    scripts that only capture).

    The scripts are Python code that talks to the network, prints and
    handles exceptions.  They are embedded in a small state-and-exception
    monad over a [world] that holds the remote service, the requests sent
    so far and everything written to the terminal. *)

From stdpp Require Import base option list gmap strings.

Set Warnings "-register-all".
Open Scope string_scope.
Open Scope Z_scope.

(** * The Python run time the scripts rely on *)

Module Py.

(** Values produced by [json] decoding ([response.json()]): [None], [bool],
    [int], [float], [str], [list] and [dict] with string keys.  A [float]
    is kept as its literal. *)
Inductive value : Type :=
| VNone
| VBool (b : bool)
| VInt (n : Z)
| VFloat (literal : string)
| VStr (s : string)
| VList (l : list value)
| VDict (d : gmap string value).

(** [type(v).__name__] *)
Definition type_name (v : value) : string :=
  match v with
  | VNone => "NoneType"
  | VBool _ => "bool"
  | VInt _ => "int"
  | VFloat _ => "float"
  | VStr _ => "str"
  | VList _ => "list"
  | VDict _ => "dict"
  end.

(** The exception classes that can occur in the scripts.
    [KeyboardInterrupt] derives from [BaseException] only; every other
    class derives from [Exception].  [ConnectTimeout] derives from
    [ConnectionError] (and from [Timeout]); [ReadTimeout] derives from
    [Timeout] but not from [ConnectionError]; [RequestException] stands for
    the remaining exceptions of the [requests] library, [TooManyRedirects]
    among them.  [UnicodeEncodeError] is what [print] raises when the
    terminal cannot encode the text. *)
Inductive exc_class : Type :=
| KeyboardInterrupt
| RequestException
| ConnectionError
| ConnectTimeout
| ReadTimeout
| JSONDecodeError
| AttributeError
| TypeError
| KeyError
| UnicodeEncodeError.

(** An exception object: its class and [str(e)]. *)
Record exc : Type := Exc { exc_cls : exc_class; exc_str : string }.

(** [isinstance(e, Exception)] *)
Definition is_Exception (e : exc) : bool :=
  match exc_cls e with
  | KeyboardInterrupt => false
  | _ => true
  end.

(** [isinstance(e, requests.exceptions.ConnectionError)] *)
Definition is_ConnectionError (e : exc) : bool :=
  match exc_cls e with
  | ConnectionError | ConnectTimeout => true
  | _ => false
  end.

(** A bare [except:] clause catches everything. *)
Definition is_BaseException (e : exc) : bool := true.

(** Exceptions raised by the transport layer of [requests.post], before
    any HTTP response is available. *)
Definition is_transport_failure (e : exc) : bool :=
  match exc_cls e with
  | RequestException | ConnectionError | ConnectTimeout | ReadTimeout => true
  | _ => false
  end.

(** ** Strings

    A Python [str] is represented by its UTF-8 encoding.  Slices and
    lengths count code points, so continuation bytes (0x80..0xBF) stay
    with the byte that leads them. *)
Definition is_continuation (a : Ascii.ascii) : bool :=
  let n := Z.of_N (Ascii.N_of_ascii a) in (128 <=? n) && (n <? 192).

(** [s[:n]] *)
Fixpoint slice_to (n : nat) (s : string) : string :=
  match s with
  | EmptyString => EmptyString
  | String a s' =>
      if is_continuation a then String a (slice_to n s')
      else match n with
           | O => EmptyString
           | S n' => String a (slice_to n' s')
           end
  end.

(** [len(s)] *)
Fixpoint len (s : string) : Z :=
  match s with
  | EmptyString => 0
  | String a s' => (if is_continuation a then 0 else 1) + len s'
  end.

(** Truth value of a [str]: only the empty string is false. *)
Definition truthy (s : string) : bool :=
  match s with
  | EmptyString => false
  | String _ _ => true
  end.

(** ** Terminal output

    An f-string is kept as the list of its parts: literal text and the
    interpolated values, which are not rendered. *)
Inductive piece : Type :=
| Lit (s : string)
| FStr (s : string)
| FInt (n : Z)
| FVal (v : value)
| FDumps (v : value) (indent : Z).

Inductive output : Type :=
| Stdout (line : list piece)
| Traceback (e : exc).

End Py.
Export Py.

(** * The [requests] library and the remote service *)

Module Requests.

Inductive http_method : Type := GET | POST.

Record http_request : Type := HttpRequest {
  rq_method : http_method;
  rq_url : string;
  rq_headers : gmap string string;
  rq_json : value;
  rq_allow_redirects : bool
}.

(** A response object as the scripts use it: [status_code], [text] and the
    outcome of the [json()] method, [inr v] when the body decodes to [v]
    and [inl msg] when decoding raises [JSONDecodeError] with
    [str(e) = msg]. *)
Record response : Type := Response {
  status_code : Z;
  text : string;
  json_outcome : string + value
}.

(** What one call of [requests.post] gives: a response (after redirects
    have been followed by the library), or an exception. *)
Inductive reply : Type :=
| Responds (r : response)
| Fails (e : exc).

(** The world a script runs in: the behaviour of the remote end, which may
    depend on the requests made before, the requests made so far (oldest
    first; one entry per call of the [requests] library, and in [Live] one
    entry per request on the wire) and the terminal output so far (oldest
    first). *)
Record world : Type := World {
  service : list http_request -> http_request -> reply;
  sent : list http_request;
  terminal : list output
}.

End Requests.
Export Requests.

(** * Control flow: state and exceptions *)

Inductive outcome (A : Type) : Type :=
| Return (a : A)
| Raise (e : exc).
Arguments Return {A} a.
Arguments Raise {A} e.

Definition M (A : Type) : Type := world -> outcome A * world.

#[global] Instance M_ret : MRet M := fun A a w => (Return a, w).

#[global] Instance M_bind : MBind M := fun A B f m w =>
  match m w with
  | (Return a, w') => f a w'
  | (Raise e, w') => (Raise e, w')
  end.

Definition raise {A : Type} (e : exc) : M A := fun w => (Raise e, w).

(** [print(...)] on a terminal that takes the line.  A terminal that may
    refuse it is [Live.print] below. *)
Definition print (line : list piece) : M unit := fun w =>
  (Return tt, World (service w) (sent w) (terminal w ++ [Stdout line])).

(** [traceback.print_exc()] inside a handler for [e] *)
Definition print_exc (e : exc) : M unit := fun w =>
  (Return tt, World (service w) (sent w) (terminal w ++ [Traceback e])).

(** [except <class> as e: <handler>] clauses, in source order. *)
Definition clauses (A : Type) : Type := list ((exc -> bool) * (exc -> M A)).

Fixpoint dispatch {A : Type} (hs : clauses A) (e : exc) : M A :=
  match hs with
  | [] => raise e
  | (catches, handler) :: hs' => if catches e then handler e else dispatch hs' e
  end.

(** [try: body  except ...: ...] *)
Definition try_except {A : Type} (body : M A) (hs : clauses A) : M A := fun w =>
  match body w with
  | (Return a, w') => (Return a, w')
  | (Raise e, w') => dispatch hs e w'
  end.

(** [try: body  except ...: ...  else: rest].  A [try] whose handlers all
    leave the function and which is followed by more code has this form:
    the code that follows is not protected by the handlers. *)
Definition try_except_else {A B : Type}
    (body : M A) (hs : clauses B) (rest : A -> M B) : M B := fun w =>
  match body w with
  | (Return a, w') => rest a w'
  | (Raise e, w') => dispatch hs e w'
  end.

(** ** Operations on decoded values *)

(** [v.get(key, default)]; only a [dict] has the method. *)
Definition get (v : value) (key : string) (dflt : value) : M value :=
  match v with
  | VDict d => mret (default dflt (d !! key))
  | _ => raise (Exc AttributeError
                 ("'" +:+ type_name v +:+ "' object has no attribute 'get'"))
  end.

Definition is_str (key : string) (v : value) : bool :=
  match v with
  | VStr s => bool_decide (s = key)
  | _ => false
  end.

(** [key in v] for a string [key] *)
Definition contains (key : string) (v : value) : M bool :=
  match v with
  | VDict d => mret (bool_decide (is_Some (d !! key)))
  | VList l => mret (existsb (is_str key) l)
  | VStr s => mret (bool_decide (is_Some (String.index 0 key s)))
  | _ => raise (Exc TypeError
                 ("argument of type '" +:+ type_name v +:+ "' is not iterable"))
  end.

(** [v[key]] for a string [key] *)
Definition getitem (v : value) (key : string) : M value :=
  match v with
  | VDict d =>
      match d !! key with
      | Some x => mret x
      | None => raise (Exc KeyError ("'" +:+ key +:+ "'"))
      end
  | VStr _ => raise (Exc TypeError "string indices must be integers")
  | VList _ => raise (Exc TypeError "list indices must be integers or slices, not str")
  | _ => raise (Exc TypeError
                 ("'" +:+ type_name v +:+ "' object is not subscriptable"))
  end.

(** ** [requests.post] and [response.json()] *)

(** [requests.post(url, headers=headers, json=json, allow_redirects=...)]:
    the call is logged in [sent], and it gives back the final response or
    raises.  The requests the library sends on the wire to follow redirects
    are not logged here; they are in [Live.requests_post] below. *)
Definition requests_post (url : string) (headers : gmap string string)
    (json : value) (allow_redirects : bool) : M response := fun w =>
  let rq := HttpRequest POST url headers json allow_redirects in
  let w' := World (service w) (sent w ++ [rq]) (terminal w) in
  match service w (sent w) rq with
  | Responds r => (Return r, w')
  | Fails e => (Raise e, w')
  end.

(** [requests.get(url)]: no headers and no body of the caller's; redirects
    are followed by default. *)
Definition requests_get (url : string) : M response := fun w =>
  let rq := HttpRequest GET url ∅ VNone true in
  let w' := World (service w) (sent w ++ [rq]) (terminal w) in
  match service w (sent w) rq with
  | Responds r => (Return r, w')
  | Fails e => (Raise e, w')
  end.

(** [response.json()] *)
Definition response_json (r : response) : M value :=
  match json_outcome r with
  | inr v => mret v
  | inl msg => raise (Exc JSONDecodeError msg)
  end.

(** A line feed inside a printed string. *)
Definition nl : string := String (Ascii.ascii_of_nat 10) EmptyString.

(** [s * n] *)
Fixpoint str_mul (s : string) (n : nat) : string :=
  match n with
  | O => EmptyString
  | S n' => s +:+ str_mul s n'
  end.

(** * quick-capture-client.py *)

Module QuickCaptureClient.

Definition NOTION_LITE_URL : string := "http://localhost:3002".
Definition API_KEY : string := "quick-capture-dev-key".
Definition USER_ID : string := "YOUR_USER_ID".

(** [def send_to_notion_lite(content: str, page_title: str = "Inbox") -> bool].
    [page_title_arg] is [None] when the caller leaves the argument out.
    [requests.post] is called without [allow_redirects], whose default is
    [True]. *)
Definition send_to_notion_lite
    (content : string) (page_title_arg : option string) : M bool :=
  let page_title := default "Inbox" page_title_arg in
  try_except
    (response ← requests_post
         (NOTION_LITE_URL +:+ "/api/capture")
         {[ "x-api-key" := API_KEY;
            "Content-Type" := "application/json" ]}
         (VDict {[ "content" := VStr content;
                   "userId" := VStr USER_ID;
                   "pageTitle" := VStr page_title ]})
         true;
     if bool_decide (status_code response = 200) then
       result ← response_json response;
       print [Lit "✓ Captured to "; FStr page_title; Lit ": ";
              FStr (slice_to 50 content); Lit "..."];;
       mret true
     else
       print [Lit "✗ Failed: "; FInt (status_code response); Lit " - ";
              FStr (text response)];;
       mret false)
    [(is_Exception, fun e =>
        print [Lit "✗ Error: "; FStr (exc_str e)];;
        mret false)].

(** The script body under [if __name__ == "__main__":] (source lines 115 to
    132). *)
Definition main : M unit :=
  print [Lit "Notion Lite Quick Capture Examples"];;
  print [Lit (str_mul "=" 40)];;
  send_to_notion_lite "Remember to review the quarterly report" None;;
  send_to_notion_lite "[] Call the dentist for appointment" None;;
  send_to_notion_lite "[x] Finished the presentation slides" None;;
  send_to_notion_lite "Project idea: AI-powered note-taking" (Some "Ideas");;
  print [Lit (nl +:+ str_mul "=" 40)];;
  print [Lit "To use with hotkey, uncomment the line below:"].

End QuickCaptureClient.

(** * working-capture.py *)

Module WorkingCapture.

Definition NOTION_LITE_URL : string := "http://localhost:3002".
Definition API_KEY : string := "quick-capture-dev-key".
Definition USER_ID : string := "0bnt7oYu8zfqw09XRd3otDT8Fbo2".

(** [def capture_to_notion_lite(content)], returning the tuple
    [(success, response)]. *)
Definition capture_to_notion_lite (content : string) : M (bool * value) :=
  let url := NOTION_LITE_URL +:+ "/api/capture" in
  let headers : gmap string string :=
    {[ "x-api-key" := API_KEY;
       "Content-Type" := "application/json" ]} in
  let data :=
    VDict {[ "content" := VStr content;
             "userId" := VStr USER_ID;
             "pageTitle" := VStr "Inbox" ]} in
  try_except
    (response ← requests_post url headers data true;
     if bool_decide (status_code response = 200) then
       result ← response_json response;
       print [Lit "✅ Captured: "; FStr (slice_to 50 content); Lit "..."];;
       block_id ← get result "blockId" VNone;
       print [Lit "   Block ID: "; FVal block_id];;
       mret (true, result)
     else
       print [Lit "❌ Failed with status "; FInt (status_code response)];;
       print [Lit "   Response: "; FStr (text response)];;
       detail ← (if truthy (text response)
                 then response_json response
                 else mret (VDict ∅));
       mret (false, detail))
    [(is_Exception, fun e =>
        print [Lit "❌ Error: "; FStr (exc_str e)];;
        mret (false, VDict {[ "error" := VStr (exc_str e) ]}))].

(** [on_capture(text)], the function [integrate_with_your_app] defines
    (source lines 72 to 80). *)
Definition on_capture (text : string) : M bool :=
  '(success, response) ← capture_to_notion_lite text;
  (if success : bool
   then print [Lit "Captured to Notion Lite!"]
   else print [Lit "Capture failed!"]);;
  mret success.

(** [def integrate_with_your_app()]: gives back [on_capture]. *)
Definition integrate_with_your_app : string -> M bool := on_capture.

(** The loop [for item in test_items:] of the script body (source lines 100
    to 104). *)
Fixpoint capture_items (items : list string) : M unit :=
  match items with
  | [] => mret tt
  | item :: rest =>
      print [Lit (nl +:+ "Capturing: "); FStr item];;
      '(success, response) ← capture_to_notion_lite item;
      (if negb success
       then print [Lit "Failed: "; FVal response]
       else mret tt);;
      capture_items rest
  end.

Definition test_items : list string :=
  ["Remember to check email";
   "[] Call the dentist";
   "[x] Finished the report";
   "TODO: Review quarterly goals"].

(** The script body under [if __name__ == "__main__":] (source lines 88 to
    108). *)
Definition main : M unit :=
  print [Lit "Testing Notion Lite Quick Capture"];;
  print [Lit (str_mul "=" 40)];;
  capture_items test_items;;
  print [Lit (nl +:+ str_mul "=" 40)];;
  print [Lit "✅ Check your Inbox page in Notion Lite!"];;
  print [Lit "   URL: "; FStr NOTION_LITE_URL; Lit "/app"].

End WorkingCapture.

(** * test-capture.py *)

Module TestCapture.

Definition NOTION_LITE_URL : string := "http://localhost:3002".
Definition API_KEY : string := "quick-capture-dev-key".
Definition USER_ID : string := "YOUR_USER_ID_HERE".

(** [def test_api_status()] *)
Definition test_api_status : M bool :=
  print [Lit (nl +:+ "🔍 Testing API Status...")];;
  print [Lit "   URL: "; FStr NOTION_LITE_URL; Lit "/api/capture"];;
  try_except
    (response ← requests_get (NOTION_LITE_URL +:+ "/api/capture");
     print [Lit "   Status Code: "; FInt (status_code response)];;
     if bool_decide (status_code response = 200) then
       print [Lit "   ✅ API is accessible"];;
       data ← response_json response;
       message ← get data "message" (VStr "No message");
       print [Lit "   Message: "; FVal message];;
       mret true
     else
       print [Lit "   ❌ Unexpected status code: "; FInt (status_code response)];;
       mret false)
    [(is_ConnectionError, fun _ =>
        print [Lit "   ❌ Connection failed - Is Notion Lite running?"];;
        print [Lit "   Check that the app is running at "; FStr NOTION_LITE_URL];;
        mret false);
     (is_Exception, fun e =>
        print [Lit "   ❌ Error: "; FStr (exc_str e)];;
        mret false)].

(** What [test_capture] reports for a response whose body decoded to
    [data] (source lines 78 to 108). *)
Definition report (r : response) (data : value) (show_details : bool) : M bool :=
  if bool_decide (status_code r = 200) then
    print [Lit "   ✅ Capture successful!"];;
    (if show_details then
       block_id ← get data "blockId" (VStr "N/A");
       print [Lit "   Block ID: "; FVal block_id];;
       page_id ← get data "pageId" (VStr "N/A");
       print [Lit "   Page ID: "; FVal page_id];;
       has_debug ← contains "debug" data;
       if has_debug : bool then
         debug ← getitem data "debug";
         print [Lit "   Debug Info: "; FDumps debug 6]
       else mret tt
     else mret tt);;
    mret true
  else if bool_decide (status_code r = 401) then
    print [Lit "   ❌ Authentication failed"];;
    error ← get data "error" (VStr "Unknown");
    print [Lit "   Error: "; FVal error];;
    print [Lit "   Your API key: "; FStr API_KEY];;
    received_key ← get data "receivedKey" (VStr "Not shown");
    print [Lit "   Received key: "; FVal received_key];;
    print [Lit (nl +:+ "   Fix: Check your API key in Settings → Quick Capture")];;
    mret false
  else if bool_decide (status_code r = 400) then
    print [Lit "   ❌ Bad request"];;
    error ← get data "error" (VStr "Unknown");
    print [Lit "   Error: "; FVal error];;
    has_received ← contains "received" data;
    (if has_received : bool then
       received ← getitem data "received";
       print [Lit "   Received fields: "; FVal received]
     else mret tt);;
    print [Lit (nl +:+ "   Fix: Ensure USER_ID is correct")];;
    mret false
  else
    print [Lit "   ❌ Unexpected error"];;
    error ← get data "error" (VStr "Unknown");
    print [Lit "   Error: "; FVal error];;
    has_details ← contains "details" data;
    (if has_details : bool then
       details ← getitem data "details";
       print [Lit "   Details: "; FVal details]
     else mret tt);;
    mret false.

(** What [test_capture] does with the response it got (source lines 69 to
    108): the status line, then the body is decoded; the bare [except:]
    leaves the function, so the report is the [else] part of that [try]. *)
Definition inspect (response : response) (show_details : bool) : M bool :=
  print [Lit "   Status Code: "; FInt (status_code response)];;
  try_except_else
    (response_json response)
    [(is_BaseException, fun _ =>
        print [Lit "   Response Text: "; FStr (text response)];;
        mret false)]
    (fun data => report response data show_details).

(** The [except] clauses of the outer [try] (source lines 110 to 120). *)
Definition on_failure : clauses bool :=
  [(is_ConnectionError, fun _ =>
      print [Lit "   ❌ Connection failed"];;
      print [Lit "   Cannot connect to "; FStr NOTION_LITE_URL];;
      print [Lit "   Is Notion Lite running?"];;
      mret false);
   (is_Exception, fun e =>
      print [Lit "   ❌ Exception: "; FStr (exc_str e)];;
      print_exc e;;
      mret false)].

(** [def test_capture(content, show_details=True)].  [show_details_arg] is
    [None] when the caller leaves the argument out. *)
Definition test_capture
    (content : string) (show_details_arg : option bool) : M bool :=
  let show_details := default true show_details_arg in
  print [Lit (nl +:+ "📝 Testing Capture: '"); FStr content; Lit "'"];;
  let url := NOTION_LITE_URL +:+ "/api/capture" in
  let headers : gmap string string :=
    {[ "x-api-key" := API_KEY;
       "Content-Type" := "application/json" ]} in
  let payload :=
    VDict {[ "content" := VStr content;
             "userId" := VStr USER_ID;
             "pageTitle" := VStr "Inbox" ]} in
  (if show_details then
     print [Lit "   URL: "; FStr url];;
     print (if 10 <? len API_KEY
            then [Lit "   API Key: "; FStr (slice_to 10 API_KEY); Lit "..."]
            else [FStr API_KEY]);;
     print [Lit "   User ID: "; FStr USER_ID]
   else mret tt);;
  try_except
    (response ← requests_post url headers payload true;
     inspect response show_details)
    on_failure.

(** The test cases of [run_all_tests] (source lines 146 to 153);
    [time_of_day] is [datetime.now().strftime('%H:%M')]. *)
Definition test_cases (time_of_day : string) : list string :=
  ["Simple text capture";
   "[] Todo item to complete";
   "[x] Completed todo item";
   "TODO: Task with TODO prefix";
   "- Task with dash prefix";
   "Timestamped: " +:+ time_of_day +:+ " - Meeting notes"].

(** The loop [for i, content in enumerate(test_cases, 1):] of
    [run_all_tests] (source lines 160 to 163), from index [i] on, with
    [total = len(test_cases)]; it gives the final [success_count]. *)
Fixpoint run_cases (total i : Z) (cases : list string) (success_count : Z) : M Z :=
  match cases with
  | [] => mret success_count
  | content :: rest =>
      print [Lit (nl +:+ "Test "); FInt i; Lit "/"; FInt total; Lit ":"];;
      passed ← test_capture content (Some (bool_decide (i = 1)));
      run_cases total (i + 1) rest
        (if passed : bool then success_count + 1 else success_count)
  end.

(** [def run_all_tests()].  The two readings of the clock are arguments:
    [timestamp] is [datetime.now().strftime('%Y-%m-%d %H:%M:%S')] at the
    start, [time_of_day] is [datetime.now().strftime('%H:%M')] when the
    test cases are built. *)
Definition run_all_tests (timestamp time_of_day : string) : M unit :=
  print [Lit (str_mul "=" 60)];;
  print [Lit "NOTION LITE QUICK CAPTURE - DEBUG TEST SUITE"];;
  print [Lit (str_mul "=" 60)];;
  print [Lit "Timestamp: "; FStr timestamp];;
  print [Lit "Target URL: "; FStr NOTION_LITE_URL];;
  print [Lit "User ID: "; FStr USER_ID];;
  accessible ← test_api_status;
  if negb accessible then
    print [Lit (nl +:+ "⚠️  API is not accessible. Please check:")];;
    print [Lit "1. Notion Lite is running"];;
    print [Lit "2. The URL is correct: "; FStr NOTION_LITE_URL]
  else if bool_decide (USER_ID = "YOUR_USER_ID_HERE") then
    print [Lit (nl +:+ "⚠️  USER_ID not configured!")];;
    print [Lit "Please update USER_ID in this script with your actual User ID"];;
    print [Lit "You can find it in Notion Lite: Settings → Quick Capture"]
  else
    let test_cases := test_cases time_of_day in
    let total := Z.of_nat (length test_cases) in
    print [Lit (nl +:+ str_mul "=" 60)];;
    print [Lit "TESTING DIFFERENT CONTENT TYPES"];;
    print [Lit (str_mul "=" 60)];;
    success_count ← run_cases total 1 test_cases 0;
    print [Lit (nl +:+ str_mul "=" 60)];;
    print [Lit "TEST SUMMARY"];;
    print [Lit (str_mul "=" 60)];;
    print [Lit "✅ Passed: "; FInt success_count; Lit "/"; FInt total];;
    print [Lit "❌ Failed: "; FInt (total - success_count); Lit "/"; FInt total];;
    if bool_decide (success_count = total) then
      print [Lit (nl +:+ "🎉 All tests passed! Your Quick Capture is working correctly.")];;
      print [Lit "Check your Inbox page in Notion Lite to see the captured items."]
    else if 0 <? success_count then
      print [Lit (nl +:+ "⚠️  Some tests failed. Check the errors above.")]
    else
      print [Lit (nl +:+ "❌ All tests failed. Please check your configuration.")].

End TestCapture.

(** * The same functions with a terminal that may refuse a line and a wire
      that shows redirects

    Above, [print] always writes its line and a call of [requests.post] is
    one entry of [sent].  Here the two are opened up.  Python's [print]
    raises when the terminal cannot take the text (a [UnicodeEncodeError]
    when the encoding of [stdout] has no code for a character), and
    [requests] follows a redirect by sending a further request.  The
    [environment] says what the terminal refuses and where a response
    redirects to; [sent] then holds every request on the wire.  With an
    environment that refuses nothing and redirects nowhere the functions
    below are the functions above. *)

Module Live.

(** [console history line] is the exception [print] raises for [line] when
    the terminal holds [history], and [None] when the line is written.
    [location rq r] is the target of the redirect that [r], the response to
    [rq], asks for: its [Location] header resolved against the URL of [rq];
    [None] when [r] has no such header. *)
Record environment : Type := Environment {
  console : list output -> list piece -> option exc;
  location : http_request -> response -> option string
}.

(** The terminal takes every line and no response redirects. *)
Definition calm : environment :=
  Environment (fun _ _ => None) (fun _ _ => None).

(** [print(...)] *)
Definition print (env : environment) (line : list piece) : M unit := fun w =>
  match console env (terminal w) line with
  | None => (Return tt, World (service w) (sent w) (terminal w ++ [Stdout line]))
  | Some e => (Raise e, w)
  end.

(** The status codes [requests] takes for a redirect when the response has
    a [Location] header. *)
Definition is_redirect (status : Z) : bool :=
  (status =? 301) || (status =? 302) || (status =? 303)
  || (status =? 307) || (status =? 308).

(** The request [requests] sends to follow a redirect of [rq] to [url]:
    status 307 and 308 repeat the request, method and body included; the
    other redirects are followed by a GET without the body and without its
    [Content-Type]. *)
Definition redirected (rq : http_request) (status : Z) (url : string) :
    http_request :=
  if (status =? 307) || (status =? 308)
  then HttpRequest (rq_method rq) url (rq_headers rq) (rq_json rq)
         (rq_allow_redirects rq)
  else HttpRequest GET url (delete "Content-Type" (rq_headers rq)) VNone
         (rq_allow_redirects rq).

(** One call of [requests.post] or [requests.get] on the wire: the request
    goes out; a redirect is followed while [redirects_left] allows, and
    after 30 of them [TooManyRedirects] is raised.  The result is the
    outcome of the call and the wire after it. *)
Fixpoint follow (env : environment)
    (remote : list http_request -> http_request -> reply)
    (redirects_left : nat) (wire : list http_request) (rq : http_request) :
    outcome response * list http_request :=
  match remote wire rq with
  | Fails e => (Raise e, (wire ++ [rq])%list)
  | Responds r =>
      match (if rq_allow_redirects rq then location env rq r else None) with
      | None => (Return r, (wire ++ [rq])%list)
      | Some url =>
          if is_redirect (status_code r) then
            match redirects_left with
            | O => (Raise (Exc RequestException "Exceeded 30 redirects."),
                    (wire ++ [rq])%list)
            | S n => follow env remote n ((wire ++ [rq])%list)
                       (redirected rq (status_code r) url)
            end
          else (Return r, (wire ++ [rq])%list)
      end
  end.

(** [max_redirects] of a [requests] session. *)
Definition max_redirects : nat := 30.

(** [requests.post(url, headers=headers, json=json, allow_redirects=...)] *)
Definition requests_post (env : environment) (url : string)
    (headers : gmap string string) (json : value) (allow_redirects : bool) :
    M response := fun w =>
  let rq := HttpRequest POST url headers json allow_redirects in
  let run := follow env (service w) max_redirects (sent w) rq in
  (fst run, World (service w) (snd run) (terminal w)).

Module QuickCaptureClient.

(** [send_to_notion_lite], source lines 19 to 54. *)
Definition send_to_notion_lite (env : environment)
    (content : string) (page_title_arg : option string) : M bool :=
  let page_title := default "Inbox" page_title_arg in
  try_except
    (response ← requests_post env
         (QuickCaptureClient.NOTION_LITE_URL +:+ "/api/capture")
         {[ "x-api-key" := QuickCaptureClient.API_KEY;
            "Content-Type" := "application/json" ]}
         (VDict {[ "content" := VStr content;
                   "userId" := VStr QuickCaptureClient.USER_ID;
                   "pageTitle" := VStr page_title ]})
         true;
     if bool_decide (status_code response = 200) then
       result ← response_json response;
       print env [Lit "✓ Captured to "; FStr page_title; Lit ": ";
                  FStr (slice_to 50 content); Lit "..."];;
       mret true
     else
       print env [Lit "✗ Failed: "; FInt (status_code response); Lit " - ";
                  FStr (text response)];;
       mret false)
    [(is_Exception, fun e =>
        print env [Lit "✗ Error: "; FStr (exc_str e)];;
        mret false)].

End QuickCaptureClient.

Module WorkingCapture.

(** [capture_to_notion_lite], source lines 19 to 58. *)
Definition capture_to_notion_lite (env : environment) (content : string) :
    M (bool * value) :=
  let url := WorkingCapture.NOTION_LITE_URL +:+ "/api/capture" in
  let headers : gmap string string :=
    {[ "x-api-key" := WorkingCapture.API_KEY;
       "Content-Type" := "application/json" ]} in
  let data :=
    VDict {[ "content" := VStr content;
             "userId" := VStr WorkingCapture.USER_ID;
             "pageTitle" := VStr "Inbox" ]} in
  try_except
    (response ← requests_post env url headers data true;
     if bool_decide (status_code response = 200) then
       result ← response_json response;
       print env [Lit "✅ Captured: "; FStr (slice_to 50 content); Lit "..."];;
       block_id ← get result "blockId" VNone;
       print env [Lit "   Block ID: "; FVal block_id];;
       mret (true, result)
     else
       print env [Lit "❌ Failed with status "; FInt (status_code response)];;
       print env [Lit "   Response: "; FStr (text response)];;
       detail ← (if truthy (text response)
                 then response_json response
                 else mret (VDict ∅));
       mret (false, detail))
    [(is_Exception, fun e =>
        print env [Lit "❌ Error: "; FStr (exc_str e)];;
        mret (false, VDict {[ "error" := VStr (exc_str e) ]}))].

End WorkingCapture.

Module TestCapture.

(** Source lines 78 to 108 of [test_capture]. *)
Definition report (env : environment) (r : response) (data : value)
    (show_details : bool) : M bool :=
  if bool_decide (status_code r = 200) then
    print env [Lit "   ✅ Capture successful!"];;
    (if show_details then
       block_id ← get data "blockId" (VStr "N/A");
       print env [Lit "   Block ID: "; FVal block_id];;
       page_id ← get data "pageId" (VStr "N/A");
       print env [Lit "   Page ID: "; FVal page_id];;
       has_debug ← contains "debug" data;
       if has_debug : bool then
         debug ← getitem data "debug";
         print env [Lit "   Debug Info: "; FDumps debug 6]
       else mret tt
     else mret tt);;
    mret true
  else if bool_decide (status_code r = 401) then
    print env [Lit "   ❌ Authentication failed"];;
    error ← get data "error" (VStr "Unknown");
    print env [Lit "   Error: "; FVal error];;
    print env [Lit "   Your API key: "; FStr TestCapture.API_KEY];;
    received_key ← get data "receivedKey" (VStr "Not shown");
    print env [Lit "   Received key: "; FVal received_key];;
    print env [Lit (nl +:+ "   Fix: Check your API key in Settings → Quick Capture")];;
    mret false
  else if bool_decide (status_code r = 400) then
    print env [Lit "   ❌ Bad request"];;
    error ← get data "error" (VStr "Unknown");
    print env [Lit "   Error: "; FVal error];;
    has_received ← contains "received" data;
    (if has_received : bool then
       received ← getitem data "received";
       print env [Lit "   Received fields: "; FVal received]
     else mret tt);;
    print env [Lit (nl +:+ "   Fix: Ensure USER_ID is correct")];;
    mret false
  else
    print env [Lit "   ❌ Unexpected error"];;
    error ← get data "error" (VStr "Unknown");
    print env [Lit "   Error: "; FVal error];;
    has_details ← contains "details" data;
    (if has_details : bool then
       details ← getitem data "details";
       print env [Lit "   Details: "; FVal details]
     else mret tt);;
    mret false.

(** Source lines 69 to 108 of [test_capture]. *)
Definition inspect (env : environment) (response : response)
    (show_details : bool) : M bool :=
  print env [Lit "   Status Code: "; FInt (status_code response)];;
  try_except_else
    (response_json response)
    [(is_BaseException, fun _ =>
        print env [Lit "   Response Text: "; FStr (text response)];;
        mret false)]
    (fun data => report env response data show_details).

(** Source lines 110 to 120 of [test_capture].  [traceback.print_exc()]
    writes to [stderr], which replaces what it cannot encode. *)
Definition on_failure (env : environment) : clauses bool :=
  [(is_ConnectionError, fun _ =>
      print env [Lit "   ❌ Connection failed"];;
      print env [Lit "   Cannot connect to "; FStr TestCapture.NOTION_LITE_URL];;
      print env [Lit "   Is Notion Lite running?"];;
      mret false);
   (is_Exception, fun e =>
      print env [Lit "   ❌ Exception: "; FStr (exc_str e)];;
      print_exc e;;
      mret false)].

(** Source lines 46 to 63 of [test_capture]: what is printed before the
    [try]. *)
Definition announce (env : environment) (content : string)
    (show_details : bool) : M unit :=
  print env [Lit (nl +:+ "📝 Testing Capture: '"); FStr content; Lit "'"];;
  let url := TestCapture.NOTION_LITE_URL +:+ "/api/capture" in
  if show_details then
    print env [Lit "   URL: "; FStr url];;
    print env (if 10 <? len TestCapture.API_KEY
               then [Lit "   API Key: ";
                     FStr (slice_to 10 TestCapture.API_KEY); Lit "..."]
               else [FStr TestCapture.API_KEY]);;
    print env [Lit "   User ID: "; FStr TestCapture.USER_ID]
  else mret tt.

(** [test_capture], source lines 44 to 120. *)
Definition test_capture (env : environment)
    (content : string) (show_details_arg : option bool) : M bool :=
  let show_details := default true show_details_arg in
  let url := TestCapture.NOTION_LITE_URL +:+ "/api/capture" in
  let headers : gmap string string :=
    {[ "x-api-key" := TestCapture.API_KEY;
       "Content-Type" := "application/json" ]} in
  let payload :=
    VDict {[ "content" := VStr content;
             "userId" := VStr TestCapture.USER_ID;
             "pageTitle" := VStr "Inbox" ]} in
  announce env content show_details;;
  try_except
    (response ← requests_post env url headers payload true;
     inspect env response show_details)
    (on_failure env).

End TestCapture.

End Live.

(** The terminal of [env] takes [lines], one after the other, when it holds
    [history]. *)
Fixpoint accepts (env : Live.environment) (history : list output)
    (lines : list output) : Prop :=
  match lines with
  | [] => True
  | Stdout line :: rest =>
      Live.console env history line = None
      /\ accepts env (history ++ [Stdout line]) rest
  | Traceback e :: rest => accepts env (history ++ [Traceback e]) rest
  end.

(** The terminal of [env] takes every line, whatever it holds. *)
Definition accepts_everything (env : Live.environment) : Prop :=
  forall history line, Live.console env history line = None.

(** * Observing a call *)

(** The value a call returns, or the exception it lets through. *)
Definition result {A : Type} (m : M A) (w : world) : outcome A := fst (m w).

(** What a call started in [w] has added to [sent]: the calls of
    [requests.post] and [requests.get] for the functions above, the
    requests on the wire for the functions of [Live]. *)
Definition posted {A : Type} (m : M A) (w : world) : list http_request :=
  drop (length (sent w)) (sent (snd (m w))).

(** What a call started in [w] has written to the terminal. *)
Definition printed {A : Type} (m : M A) (w : world) : list output :=
  drop (length (terminal w)) (terminal (snd (m w))).

(** The field names of the JSON body of a request. *)
Definition body_fields (rq : http_request) : option (gset string) :=
  match rq_json rq with
  | VDict d => Some (dom d)
  | _ => None
  end.

(** One field of the JSON body of a request. *)
Definition body_field (key : string) (rq : http_request) : option value :=
  match rq_json rq with
  | VDict d => d !! key
  | _ => None
  end.

(** The remote end answers the next request of [w] with response [r]. *)
Definition answers (w : world) (r : response) : Prop :=
  forall rq, service w (sent w) rq = Responds r.

(** The remote end gives [rp] to the next request of [w]. *)
Definition replies (w : world) (rp : reply) : Prop :=
  forall rq, service w (sent w) rq = rp.

(** The remote end answers every request, now and later, with [r]. *)
Definition always_answers (w : world) (r : response) : Prop :=
  forall history rq, service w history rq = Responds r.

(** Every request, now and later, fails with exception [e]. *)
Definition always_fails (w : world) (e : exc) : Prop :=
  forall history rq, service w history rq = Fails e.

(** The next request of [w] fails with exception [e] and no response. *)
Definition fails_with (w : world) (e : exc) : Prop :=
  forall rq, service w (sent w) rq = Fails e.

(** Whatever goes wrong with a request of [w] on the way is an exception of
    the transport layer. *)
Definition transport_failures_only (w : world) : Prop :=
  forall history rq e,
    service w history rq = Fails e -> is_transport_failure e = true.

(** The request a capture makes, given the configured key and user and the
    content and page title. *)
Definition capture_request (api_key user_id content page_title : string) :
    http_request :=
  HttpRequest POST "http://localhost:3002/api/capture"
    {[ "x-api-key" := api_key; "Content-Type" := "application/json" ]}
    (VDict {[ "content" := VStr content;
              "userId" := VStr user_id;
              "pageTitle" := VStr page_title ]})
    true.

(** What [test_capture] prints before it makes the request (source lines
    46 and 60 to 63). *)
Definition announced (content : string) (show_details : option bool) : list output :=
  Stdout [Lit (nl +:+ "📝 Testing Capture: '"); FStr content; Lit "'"]
  :: (if default true show_details
      then [Stdout [Lit "   URL: "; FStr "http://localhost:3002/api/capture"];
            Stdout [Lit "   API Key: "; FStr "quick-capt"; Lit "..."];
            Stdout [Lit "   User ID: "; FStr "YOUR_USER_ID_HERE"]]
      else []).

(** * Effects of a computation *)

(** A computation that makes no request and only adds lines to the
    terminal. *)
Definition quiet {A : Type} (m : M A) : Prop :=
  forall w,
    sent (snd (m w)) = sent w /\
    exists lines, terminal (snd (m w)) = (terminal w ++ lines)%list.

(** A computation that always returns. *)
Definition never_raises {A : Type} (m : M A) : Prop :=
  forall w, exists a w', m w = (Return a, w').

(** A computation that lets through only exceptions accepted by [P]. *)
Definition raises_only {A : Type} (P : exc -> bool) (m : M A) : Prop :=
  forall w e w', m w = (Raise e, w') -> P e = true.

(** A computation that returns only values accepted by [Q]. *)
Definition returns_only {A : Type} (Q : A -> Prop) (m : M A) : Prop :=
  forall w a w', m w = (Return a, w') -> Q a.

(** A computation that does not look at the world: it ends the same way
    and prints the same lines wherever it runs, and leaves the service and
    the requests alone. *)
Definition plain {A : Type} (m : M A) : Prop :=
  exists o lines,
    forall w, m w = (o, World (service w) (sent w) (terminal w ++ lines)).

(** * Example services *)

Module Scenario.

Definition quote : string := String (Ascii.ascii_of_nat 34) EmptyString.
Definition quoted (s : string) : string := quote +:+ s +:+ quote.

(** A fresh world whose service gives the same reply to every request. *)
Definition always (rp : reply) : world := World (fun _ _ => rp) [] [].

(** [{"blockId": "b1", "pageId": "p1"}] *)
Definition ids_body : gmap string value :=
  {[ "blockId" := VStr "b1"; "pageId" := VStr "p1" ]}.

Definition ids_text : string :=
  "{" +:+ quoted "blockId" +:+ ": " +:+ quoted "b1" +:+ ", "
      +:+ quoted "pageId" +:+ ": " +:+ quoted "p1" +:+ "}".

Definition captured : response := Response 200 ids_text (inr (VDict ids_body)).

(** A 200 response with an empty JSON object. *)
Definition captured_without_ids : response := Response 200 "{}" (inr (VDict ∅)).

(** A 200 response whose body is an HTML page. *)
Definition ok_but_html : response :=
  Response 200 "<html>ok</html>" (inl "Expecting value: line 1 column 1 (char 0)").

(** [{"error":"invalid key"}] *)
Definition invalid_key_body : gmap string value :=
  {[ "error" := VStr "invalid key" ]}.

Definition invalid_key_text : string :=
  "{" +:+ quoted "error" +:+ ":" +:+ quoted "invalid key" +:+ "}".

Definition rejected (status : Z) : response :=
  Response status invalid_key_text (inr (VDict invalid_key_body)).

(** [{"error":"Connection refused"}] with status 500. *)
Definition broken : response :=
  Response 500
    ("{" +:+ quoted "error" +:+ ":" +:+ quoted "Connection refused" +:+ "}")
    (inr (VDict {[ "error" := VStr "Connection refused" ]})).

(** Responses with status 502: no body, and a body that is not JSON. *)
Definition bad_gateway_empty : response :=
  Response 502 EmptyString (inl "Expecting value: line 1 column 1 (char 0)").

Definition bad_gateway_html : response :=
  Response 502 "<html>Bad Gateway</html>"
    (inl "Expecting value: line 1 column 1 (char 0)").

(** Transport failures. *)
Definition refused : exc := Exc ConnectionError "Connection refused".
Definition timed_out : exc := Exc ReadTimeout "Read timed out.".

(** A terminal whose encoding is ASCII: [print] raises for a line whose
    literal text, or a string it shows, has a character outside ASCII. *)
Fixpoint is_ascii (s : string) : bool :=
  match s with
  | EmptyString => true
  | String a s' => (Z.of_N (Ascii.N_of_ascii a) <? 128) && is_ascii s'
  end.

Definition piece_is_ascii (p : piece) : bool :=
  match p with
  | Lit s | FStr s => is_ascii s
  | _ => true
  end.

Definition ascii_terminal : Live.environment :=
  Live.Environment
    (fun _ line =>
       if forallb piece_is_ascii line then None
       else Some (Exc UnicodeEncodeError
                    "'ascii' codec can't encode character: ordinal not in range(128)"))
    (fun _ _ => None).

(** A service behind a redirect that never ends: every request is answered
    with status 307 and, as [Location], the URL it was sent to. *)
Definition temporary_redirect : response :=
  Response 307 EmptyString (inl "Expecting value: line 1 column 1 (char 0)").

Definition redirecting : Live.environment :=
  Live.Environment (fun _ _ => None) (fun rq _ => Some (rq_url rq)).

End Scenario.

(** * Strings: slices and lengths count code points *)

Example slice_to_ascii : slice_to 10 "quick-capture-dev-key" = "quick-capt".
Proof. reflexivity. Qed.

Example slice_to_short : slice_to 50 "[] Call the dentist" = "[] Call the dentist".
Proof. reflexivity. Qed.

Example slice_to_code_points : slice_to 2 "✓ Captured" = "✓ ".
Proof. reflexivity. Qed.

Example len_code_points : len "✓ ok" = 4.
Proof. reflexivity. Qed.

Lemma slice_to_empty (n : nat) : slice_to n EmptyString = EmptyString.
Proof. destruct n; reflexivity. Qed.

Lemma len_nonnegative (s : string) : 0 <= len s.
Proof. induction s as [| a s IH]; simpl; [lia | destruct (is_continuation a); lia]. Qed.

(** * Laws of the monad *)

Lemma bind_ret {A B : Type} (a : A) (f : A -> M B) (w : world) :
  (mret a ≫= f) w = f a w.
Proof. reflexivity. Qed.

Lemma bind_assoc {A B C : Type} (m : M A) (f : A -> M B) (g : B -> M C)
    (w : world) :
  ((m ≫= f) ≫= g) w = (m ≫= (fun a => f a ≫= g)) w.
Proof. unfold mbind, M_bind. destruct (m w) as [[a | e] w1]; reflexivity. Qed.

Lemma bind_print {B : Type} (line : list piece) (f : unit -> M B) (w : world) :
  (print line ≫= f) w
  = f tt (World (service w) (sent w) (terminal w ++ [Stdout line])).
Proof. reflexivity. Qed.

(** Unfold the monad operations and run the code as far as it goes. *)
Ltac run :=
  repeat (unfold try_except, try_except_else, mbind, M_bind, mret, M_ret,
            print, print_exc, raise, response_json, get, contains, getitem in *;
          cbn [dispatch fst snd service sent terminal is_Exception
               is_ConnectionError is_BaseException exc_cls exc_str] in *).

(** * Computations that stay off the network *)

Section Quiet.
Context {A B : Type}.

Lemma quiet_ret (a : A) : quiet (mret a : M A).
Proof. intros w. split; [reflexivity |]. exists []. symmetry. apply app_nil_r. Qed.

Lemma quiet_raise (e : exc) : quiet (raise e : M A).
Proof. intros w. split; [reflexivity |]. exists []. symmetry. apply app_nil_r. Qed.

Lemma quiet_bind (m : M A) (f : A -> M B) :
  quiet m -> (forall a, quiet (f a)) -> quiet (m ≫= f).
Proof.
  intros Hm Hf w. unfold mbind, M_bind.
  destruct (Hm w) as [Hs [l1 Ht]]. destruct (m w) as [[a | e] w1]; simpl in *.
  - destruct (Hf a w1) as [Hs' [l2 Ht']]. split; [congruence |].
    exists (l1 ++ l2)%list. rewrite Ht', Ht. symmetry. apply app_assoc.
  - eauto.
Qed.

Lemma quiet_if (b : bool) (m1 m2 : M A) :
  quiet m1 -> quiet m2 -> quiet (if b then m1 else m2).
Proof. destruct b; trivial. Qed.

Lemma quiet_dispatch (hs : clauses A) (e : exc) :
  Forall (fun h => forall e', quiet (h.2 e')) hs -> quiet (dispatch hs e).
Proof.
  induction 1 as [| [catches handler] hs Hh _ IH]; simpl.
  - apply quiet_raise.
  - destruct (catches e); [apply Hh | apply IH].
Qed.

Lemma quiet_try_except (body : M A) (hs : clauses A) :
  quiet body -> (forall e, quiet (dispatch hs e)) -> quiet (try_except body hs).
Proof.
  intros Hb Hh w. unfold try_except.
  destruct (Hb w) as [Hs [l1 Ht]]. destruct (body w) as [[a | e] w1]; simpl in *.
  - eauto.
  - destruct (Hh e w1) as [Hs' [l2 Ht']]. split; [congruence |].
    exists (l1 ++ l2)%list. rewrite Ht', Ht. symmetry. apply app_assoc.
Qed.

Lemma quiet_try_except_else (body : M A) (hs : clauses B) (rest : A -> M B) :
  quiet body -> (forall e, quiet (dispatch hs e)) -> (forall a, quiet (rest a)) ->
  quiet (try_except_else body hs rest).
Proof.
  intros Hb Hh Hr w. unfold try_except_else.
  destruct (Hb w) as [Hs [l1 Ht]]. destruct (body w) as [[a | e] w1]; simpl in *.
  - destruct (Hr a w1) as [Hs' [l2 Ht']]. split; [congruence |].
    exists (l1 ++ l2)%list. rewrite Ht', Ht. symmetry. apply app_assoc.
  - destruct (Hh e w1) as [Hs' [l2 Ht']]. split; [congruence |].
    exists (l1 ++ l2)%list. rewrite Ht', Ht. symmetry. apply app_assoc.
Qed.

End Quiet.

Lemma quiet_print (line : list piece) : quiet (print line).
Proof. intros w. split; [reflexivity |]. eexists. reflexivity. Qed.

Lemma quiet_print_exc (e : exc) : quiet (print_exc e).
Proof. intros w. split; [reflexivity |]. eexists. reflexivity. Qed.

Lemma quiet_response_json (r : response) : quiet (response_json r).
Proof.
  unfold response_json. destruct (json_outcome r); [apply quiet_raise | apply quiet_ret].
Qed.

Lemma quiet_get (v : value) (key : string) (dflt : value) : quiet (get v key dflt).
Proof. destruct v; first [apply quiet_raise | apply quiet_ret]. Qed.

Lemma quiet_contains (key : string) (v : value) : quiet (contains key v).
Proof. destruct v; first [apply quiet_raise | apply quiet_ret]. Qed.

Lemma quiet_getitem (v : value) (key : string) : quiet (getitem v key).
Proof.
  destruct v; try apply quiet_raise. simpl.
  destruct (d !! key); [apply quiet_ret | apply quiet_raise].
Qed.

Create HintDb quiet.
#[local] Hint Resolve quiet_ret quiet_raise quiet_print quiet_print_exc
  quiet_response_json quiet_get quiet_contains quiet_getitem : quiet.

Ltac quiet_solver :=
  repeat first
    [ solve [auto with quiet]
    | apply quiet_if | apply quiet_bind | apply quiet_try_except
    | apply quiet_try_except_else
    | apply quiet_dispatch | apply Forall_cons | apply Forall_nil
    | progress cbn [snd] | intros ? ].

(** * Exceptions a computation lets through *)

Section Raising.
Context {A B : Type}.
Variable P : exc -> bool.

Lemma raises_only_ret (a : A) : raises_only P (mret a : M A).
Proof. intros w e w' H. discriminate H. Qed.

Lemma raises_only_bind (m : M A) (f : A -> M B) :
  raises_only P m -> (forall a, raises_only P (f a)) -> raises_only P (m ≫= f).
Proof.
  intros Hm Hf w e w'. unfold mbind, M_bind.
  destruct (m w) as [[a | e1] w1] eqn:E.
  - apply Hf.
  - intros [= <- <-]. exact (Hm _ _ _ E).
Qed.

Lemma raises_only_if (b : bool) (m1 m2 : M A) :
  raises_only P m1 -> raises_only P m2 -> raises_only P (if b then m1 else m2).
Proof. destruct b; trivial. Qed.

Lemma raises_only_try_except_else (body : M A) (hs : clauses B) (rest : A -> M B) :
  (forall e, raises_only P (dispatch hs e)) -> (forall a, raises_only P (rest a)) ->
  raises_only P (try_except_else body hs rest).
Proof.
  intros Hh Hr w e w'. unfold try_except_else.
  destruct (body w) as [[a | e1] w1]; [apply Hr | apply Hh].
Qed.

End Raising.

Lemma raises_only_print (P : exc -> bool) (line : list piece) :
  raises_only P (print line).
Proof. intros w e w' H. discriminate H. Qed.

Lemma raises_only_get (v : value) (key : string) (dflt : value) :
  raises_only is_Exception (get v key dflt).
Proof. intros w e w'. destruct v; simpl; intros [= <- _]; reflexivity. Qed.

Lemma raises_only_contains (key : string) (v : value) :
  raises_only is_Exception (contains key v).
Proof. intros w e w'. destruct v; simpl; intros [= <- _]; reflexivity. Qed.

Lemma raises_only_getitem (v : value) (key : string) :
  raises_only is_Exception (getitem v key).
Proof.
  intros w e w'. destruct v; simpl; try (intros [= <- _]; reflexivity).
  destruct (d !! key); intros [= <- _]; reflexivity.
Qed.

Lemma raises_only_response_json (r : response) :
  raises_only is_Exception (response_json r).
Proof.
  intros w e w'. unfold response_json.
  destruct (json_outcome r); intros [= <- _]; reflexivity.
Qed.

Create HintDb raising.
#[local] Hint Resolve raises_only_ret raises_only_print raises_only_get
  raises_only_contains raises_only_getitem raises_only_response_json : raising.

Ltac raising_solver :=
  repeat first
    [ solve [auto with raising]
    | apply raises_only_if | apply raises_only_bind
    | apply raises_only_try_except_else
    | progress cbn [dispatch is_BaseException]
    | intros ? ].

(** A [try] whose clauses handle, without raising, every exception its body
    can raise, returns. *)
Lemma try_except_returns {A : Type} (P : exc -> bool) (body : M A)
    (hs : clauses A) :
  raises_only P body ->
  (forall e, P e = true -> never_raises (dispatch hs e)) ->
  never_raises (try_except body hs).
Proof.
  intros Hb Hh w. unfold try_except.
  destruct (body w) as [[a | e] w1] eqn:E; [eauto |].
  apply Hh. exact (Hb _ _ _ E).
Qed.

(** * Values a computation returns *)

Section Returning.
Context {A B : Type}.

Lemma returns_only_ret (Q : A -> Prop) (a : A) : Q a -> returns_only Q (mret a : M A).
Proof. intros Ha w a' w' [= <- _]. exact Ha. Qed.

Lemma returns_only_raise (Q : A -> Prop) (e : exc) : returns_only Q (raise e : M A).
Proof. intros w a w' H. discriminate H. Qed.

Lemma returns_only_bind (Q : B -> Prop) (m : M A) (f : A -> M B) :
  (forall a, returns_only Q (f a)) -> returns_only Q (m ≫= f).
Proof.
  intros Hf w b w'. unfold mbind, M_bind.
  destruct (m w) as [[a | e] w1]; [apply Hf | discriminate].
Qed.

Lemma returns_only_if (Q : A -> Prop) (b : bool) (m1 m2 : M A) :
  returns_only Q m1 -> returns_only Q m2 -> returns_only Q (if b then m1 else m2).
Proof. destruct b; trivial. Qed.

Lemma returns_only_dispatch (Q : A -> Prop) (hs : clauses A) (e : exc) :
  Forall (fun h => forall e', returns_only Q (h.2 e')) hs ->
  returns_only Q (dispatch hs e).
Proof.
  induction 1 as [| [catches handler] hs Hh _ IH]; simpl.
  - apply returns_only_raise.
  - destruct (catches e); [apply Hh | apply IH].
Qed.

Lemma returns_only_try_except (Q : A -> Prop) (body : M A) (hs : clauses A) :
  returns_only Q body -> (forall e, returns_only Q (dispatch hs e)) ->
  returns_only Q (try_except body hs).
Proof.
  intros Hb Hh w a w'. unfold try_except.
  destruct (body w) as [[a1 | e] w1] eqn:E.
  - intros [= <- <-]. exact (Hb _ _ _ E).
  - apply Hh.
Qed.

Lemma returns_only_try_except_else (Q : B -> Prop) (body : M A) (hs : clauses B)
    (rest : A -> M B) :
  (forall e, returns_only Q (dispatch hs e)) -> (forall a, returns_only Q (rest a)) ->
  returns_only Q (try_except_else body hs rest).
Proof.
  intros Hh Hr w b w'. unfold try_except_else.
  destruct (body w) as [[a | e] w1]; [apply Hr | apply Hh].
Qed.

End Returning.

Ltac returning_solver :=
  repeat first
    [ solve [apply returns_only_ret; auto]
    | apply returns_only_raise
    | apply returns_only_if | apply returns_only_bind
    | apply returns_only_try_except | apply returns_only_try_except_else
    | apply returns_only_dispatch | apply Forall_cons | apply Forall_nil
    | progress cbn [snd] | intros ? ].

(** * Running a [try] around [requests.post] *)

Lemma try_post_run {A : Type} (url : string) (headers : gmap string string)
    (json : value) (redirects : bool) (k : response -> M A) (hs : clauses A)
    (w : world) :
  try_except (requests_post url headers json redirects ≫= k) hs w
  = let rq := HttpRequest POST url headers json redirects in
    let w1 := World (service w) (sent w ++ [rq]) (terminal w) in
    match service w (sent w) rq with
    | Responds r => try_except (k r) hs w1
    | Fails e => dispatch hs e w1
    end.
Proof.
  unfold try_except, mbind, M_bind, requests_post; simpl.
  destruct (service w (sent w) _); reflexivity.
Qed.

(** Such a [try], followed by code that stays off the network, makes
    exactly the one request, however the call ends. *)
Lemma sent_try_post {A : Type} (url : string) (headers : gmap string string)
    (json : value) (redirects : bool) (k : response -> M A) (hs : clauses A)
    (w : world) :
  (forall r, quiet (k r)) -> (forall e, quiet (dispatch hs e)) ->
  sent (snd (try_except (requests_post url headers json redirects ≫= k) hs w))
  = (sent w ++ [HttpRequest POST url headers json redirects])%list.
Proof.
  intros Hk Hh. rewrite try_post_run. cbv zeta.
  destruct (service w (sent w) _) as [r | e].
  - apply quiet_try_except; auto.
  - apply Hh.
Qed.

Lemma posted_of_sent {A : Type} (m : M A) (w : world) (rqs : list http_request) :
  sent (snd (m w)) = (sent w ++ rqs)%list -> posted m w = rqs.
Proof. intros H. unfold posted. rewrite H. apply drop_app_length. Qed.

Lemma printed_of_terminal {A : Type} (m : M A) (w : world) (lines : list output) :
  terminal (snd (m w)) = (terminal w ++ lines)%list -> printed m w = lines.
Proof. intros H. unfold printed. rewrite H. apply drop_app_length. Qed.

(** * The three functions *)

(** ** [send_to_notion_lite] *)

Lemma sent_send_to_notion_lite (content : string) (page_title : option string)
    (w : world) :
  sent (snd (QuickCaptureClient.send_to_notion_lite content page_title w))
  = (sent w ++
     [HttpRequest POST "http://localhost:3002/api/capture"
        {[ "x-api-key" := "quick-capture-dev-key";
           "Content-Type" := "application/json" ]}
        (VDict {[ "content" := VStr content;
                  "userId" := VStr "YOUR_USER_ID";
                  "pageTitle" := VStr (default "Inbox" page_title) ]})
        true])%list.
Proof.
  unfold QuickCaptureClient.send_to_notion_lite.
  apply sent_try_post; quiet_solver.
Qed.

(** ** [capture_to_notion_lite] *)

Lemma sent_capture_to_notion_lite (content : string) (w : world) :
  sent (snd (WorkingCapture.capture_to_notion_lite content w))
  = (sent w ++
     [HttpRequest POST "http://localhost:3002/api/capture"
        {[ "x-api-key" := "quick-capture-dev-key";
           "Content-Type" := "application/json" ]}
        (VDict {[ "content" := VStr content;
                  "userId" := VStr "0bnt7oYu8zfqw09XRd3otDT8Fbo2";
                  "pageTitle" := VStr "Inbox" ]})
        true])%list.
Proof.
  unfold WorkingCapture.capture_to_notion_lite.
  apply sent_try_post; quiet_solver.
Qed.

(** ** [test_capture] *)

Lemma quiet_report (r : response) (data : value) (show_details : bool) :
  quiet (TestCapture.report r data show_details).
Proof. unfold TestCapture.report. quiet_solver. Qed.

Lemma quiet_inspect (r : response) (show_details : bool) :
  quiet (TestCapture.inspect r show_details).
Proof. unfold TestCapture.inspect. quiet_solver. Qed.

Lemma quiet_on_failure (e : exc) : quiet (dispatch TestCapture.on_failure e).
Proof. unfold TestCapture.on_failure. quiet_solver. Qed.

(** [test_capture] announces the capture, makes the request and goes on
    with the response or with the exception. *)
Lemma test_capture_run (content : string) (show_details : option bool)
    (w : world) :
  TestCapture.test_capture content show_details w
  = let rq :=
      HttpRequest POST "http://localhost:3002/api/capture"
        {[ "x-api-key" := "quick-capture-dev-key";
           "Content-Type" := "application/json" ]}
        (VDict {[ "content" := VStr content;
                  "userId" := VStr "YOUR_USER_ID_HERE";
                  "pageTitle" := VStr "Inbox" ]})
        true in
    let w1 := World (service w) (sent w ++ [rq])
                (terminal w ++ announced content show_details) in
    match service w (sent w) rq with
    | Responds r =>
        try_except (TestCapture.inspect r (default true show_details))
          TestCapture.on_failure w1
    | Fails e => dispatch TestCapture.on_failure e w1
    end.
Proof.
  unfold TestCapture.test_capture, announced.
  destruct (default true show_details);
    repeat first [rewrite bind_assoc | rewrite bind_print | rewrite bind_ret];
    rewrite try_post_run; cbn [service sent terminal];
    rewrite <- ?app_assoc; reflexivity.
Qed.

Lemma sent_test_capture (content : string) (show_details : option bool)
    (w : world) :
  sent (snd (TestCapture.test_capture content show_details w))
  = (sent w ++
     [HttpRequest POST "http://localhost:3002/api/capture"
        {[ "x-api-key" := "quick-capture-dev-key";
           "Content-Type" := "application/json" ]}
        (VDict {[ "content" := VStr content;
                  "userId" := VStr "YOUR_USER_ID_HERE";
                  "pageTitle" := VStr "Inbox" ]})
        true])%list.
Proof.
  rewrite test_capture_run. cbv zeta.
  destruct (service w (sent w) _) as [r | e].
  - apply (quiet_try_except _ _ (quiet_inspect _ _) quiet_on_failure).
  - apply quiet_on_failure.
Qed.

Lemma raises_only_report (r : response) (data : value) (show_details : bool) :
  raises_only is_Exception (TestCapture.report r data show_details).
Proof. unfold TestCapture.report. raising_solver. Qed.

Lemma raises_only_inspect (r : response) (show_details : bool) :
  raises_only is_Exception (TestCapture.inspect r show_details).
Proof. unfold TestCapture.inspect. raising_solver. Qed.

Lemma on_failure_returns (e : exc) :
  is_Exception e = true -> never_raises (dispatch TestCapture.on_failure e).
Proof.
  intros He w. unfold TestCapture.on_failure. cbn [dispatch]. rewrite He.
  destruct (is_ConnectionError e); run; eauto.
Qed.

Lemma transport_failure_is_Exception (e : exc) :
  is_transport_failure e = true -> is_Exception e = true.
Proof. destruct e as [[] msg]; simpl; intros H; first [reflexivity | discriminate H]. Qed.

(** * The capture contract *)

(** On a terminal that takes every line, and with every call of
    [requests.post] taken as a whole: whatever the content and the page
    title, and whatever the outcome of the call (a response with any status
    code and any body, or an exception of the transport layer), each of
    [send_to_notion_lite], [capture_to_notion_lite] and [test_capture]
    returns a value to its caller.  The statement for a terminal that may
    refuse a line is [capture_functions_return_when_prints_succeed]. *)
Theorem capture_functions_always_return
    (content : string) (page_title : option string)
    (show_details : option bool) (w : world) :
  transport_failures_only w ->
  (exists b w',
     QuickCaptureClient.send_to_notion_lite content page_title w = (Return b, w'))
  /\ (exists p w',
        WorkingCapture.capture_to_notion_lite content w = (Return p, w'))
  /\ (exists b w',
        TestCapture.test_capture content show_details w = (Return b, w')).
Proof.
  intros Hw. repeat split.
  - unfold QuickCaptureClient.send_to_notion_lite.
    rewrite try_post_run. cbv zeta.
    destruct (service w (sent w) _) as [r | e] eqn:E.
    + apply (try_except_returns is_Exception).
      * raising_solver.
      * intros e He w1. cbn [dispatch]. rewrite He. run. eauto.
    + apply Hw, transport_failure_is_Exception in E.
      cbn [dispatch]. rewrite E. run. eauto.
  - unfold WorkingCapture.capture_to_notion_lite.
    rewrite try_post_run. cbv zeta.
    destruct (service w (sent w) _) as [r | e] eqn:E.
    + apply (try_except_returns is_Exception).
      * raising_solver.
      * intros e He w1. cbn [dispatch]. rewrite He. run. eauto.
    + apply Hw, transport_failure_is_Exception in E.
      cbn [dispatch]. rewrite E. run. eauto.
  - rewrite test_capture_run. cbv zeta.
    destruct (service w (sent w) _) as [r | e] eqn:E.
    + apply (try_except_returns is_Exception).
      * apply raises_only_inspect.
      * apply on_failure_returns.
    + apply Hw, transport_failure_is_Exception in E.
      apply on_failure_returns, E.
Qed.

Lemma capture_functions_always_return_witness :
  transport_failures_only (Scenario.always (Fails Scenario.refused))
  /\ (exists b w',
        QuickCaptureClient.send_to_notion_lite "[] Call the dentist" None
          (Scenario.always (Fails Scenario.refused)) = (Return b, w'))
  /\ (exists p w',
        WorkingCapture.capture_to_notion_lite "[] Call the dentist"
          (Scenario.always (Fails Scenario.refused)) = (Return p, w'))
  /\ (exists b w',
        TestCapture.test_capture "[] Call the dentist" None
          (Scenario.always (Fails Scenario.refused)) = (Return b, w')).
Proof.
  assert (H : transport_failures_only (Scenario.always (Fails Scenario.refused))).
  { intros history rq e [= <-]. reflexivity. }
  split; [exact H |].
  exact (capture_functions_always_return "[] Call the dentist" None None _ H).
Defined.

(** Only exceptions that derive from [Exception] are handled: an interrupt
    from the keyboard while the request is under way leaves the call. *)
Lemma keyboard_interrupt_leaves_the_call :
  result (QuickCaptureClient.send_to_notion_lite "note" None)
    (Scenario.always (Fails (Exc KeyboardInterrupt EmptyString)))
  = Raise (Exc KeyboardInterrupt EmptyString).
Proof. reflexivity. Qed.

(** On a terminal that takes every line: every invocation of a capture
    function makes exactly one call of [requests.post], for
    [NOTION_LITE_URL] followed by [/api/capture], whatever the outcome of
    the call: nothing is retried.  What that call puts on the wire, and
    what a refused line changes, is in
    [one_call_of_requests_post_per_invocation]. *)
Theorem exactly_one_post_per_invocation
    (content : string) (page_title : option string)
    (show_details : option bool) (w : world) :
  (exists rq,
     sent (snd (QuickCaptureClient.send_to_notion_lite content page_title w))
       = (sent w ++ [rq])%list
     /\ rq_method rq = POST
     /\ rq_url rq = QuickCaptureClient.NOTION_LITE_URL +:+ "/api/capture")
  /\ (exists rq,
        sent (snd (WorkingCapture.capture_to_notion_lite content w))
          = (sent w ++ [rq])%list
        /\ rq_method rq = POST
        /\ rq_url rq = WorkingCapture.NOTION_LITE_URL +:+ "/api/capture")
  /\ (exists rq,
        sent (snd (TestCapture.test_capture content show_details w))
          = (sent w ++ [rq])%list
        /\ rq_method rq = POST
        /\ rq_url rq = TestCapture.NOTION_LITE_URL +:+ "/api/capture").
Proof.
  split; [| split]; eexists.
  - split; [apply sent_send_to_notion_lite | split; reflexivity].
  - split; [apply sent_capture_to_notion_lite | split; reflexivity].
  - split; [apply sent_test_capture | split; reflexivity].
Qed.

(** C5: for every content and page title, the JSON body of the request has
    exactly the three fields [content], [userId] and [pageTitle]. *)
Theorem request_body_has_exactly_three_fields
    (content : string) (page_title : option string)
    (show_details : option bool) (w : world) :
  body_fields <$> posted (QuickCaptureClient.send_to_notion_lite content page_title) w
    = [Some {[ "content"; "userId"; "pageTitle" ]}]
  /\ body_fields <$> posted (WorkingCapture.capture_to_notion_lite content) w
       = [Some {[ "content"; "userId"; "pageTitle" ]}]
  /\ body_fields <$> posted (TestCapture.test_capture content show_details) w
       = [Some {[ "content"; "userId"; "pageTitle" ]}].
Proof.
  rewrite (posted_of_sent _ _ _ (sent_send_to_notion_lite content page_title w)).
  rewrite (posted_of_sent _ _ _ (sent_capture_to_notion_lite content w)).
  rewrite (posted_of_sent _ _ _ (sent_test_capture content show_details w)).
  unfold body_fields. cbn [fmap list_fmap rq_json].
  rewrite !dom_insert_L, !dom_singleton_L.
  repeat split; do 2 f_equal; set_solver.
Qed.

(** C6: for every content string, the empty string and strings that begin
    with a task marker included, the [content] field of the request body is
    the input string itself: nothing is trimmed, checked or rewritten. *)
Theorem content_is_passed_through_unmodified
    (content : string) (page_title : option string)
    (show_details : option bool) (w : world) :
  body_field "content"
      <$> posted (QuickCaptureClient.send_to_notion_lite content page_title) w
    = [Some (VStr content)]
  /\ body_field "content"
       <$> posted (WorkingCapture.capture_to_notion_lite content) w
       = [Some (VStr content)]
  /\ body_field "content"
       <$> posted (TestCapture.test_capture content show_details) w
       = [Some (VStr content)].
Proof.
  rewrite (posted_of_sent _ _ _ (sent_send_to_notion_lite content page_title w)).
  rewrite (posted_of_sent _ _ _ (sent_capture_to_notion_lite content w)).
  rewrite (posted_of_sent _ _ _ (sent_test_capture content show_details w)).
  unfold body_field. cbn [fmap list_fmap rq_json].
  rewrite !lookup_insert_eq. auto.
Qed.

(** C7: when the caller gives no page title, the [pageTitle] field of the
    request body is ["Inbox"]. *)
Theorem default_page_title_is_Inbox
    (content : string) (show_details : option bool) (w : world) :
  body_field "pageTitle"
      <$> posted (QuickCaptureClient.send_to_notion_lite content None) w
    = [Some (VStr "Inbox")]
  /\ body_field "pageTitle"
       <$> posted (WorkingCapture.capture_to_notion_lite content) w
       = [Some (VStr "Inbox")]
  /\ body_field "pageTitle"
       <$> posted (TestCapture.test_capture content show_details) w
       = [Some (VStr "Inbox")].
Proof.
  rewrite (posted_of_sent _ _ _ (sent_send_to_notion_lite content None w)).
  rewrite (posted_of_sent _ _ _ (sent_capture_to_notion_lite content w)).
  rewrite (posted_of_sent _ _ _ (sent_test_capture content show_details w)).
  unfold body_field. cbn [fmap list_fmap rq_json default from_option].
  repeat split; f_equal;
    rewrite !lookup_insert_ne, lookup_singleton_eq by discriminate; reflexivity.
Qed.

(** ** Runs with a known reply *)

(** Start [send_to_notion_lite] or [capture_to_notion_lite] and use the
    reply [H] of the service. *)
Ltac start_with H :=
  unfold result, printed, QuickCaptureClient.send_to_notion_lite,
    WorkingCapture.capture_to_notion_lite;
  rewrite ?test_capture_run, ?try_post_run; cbv zeta; rewrite ?(H _).

(** Decide the tests on the status code, given facts about it. *)
Ltac decide_status :=
  repeat (case_bool_decide; try lia; try congruence).

(** Read what was added to the terminal. *)
Ltac read_terminal :=
  cbn [fst snd terminal]; rewrite <- ?app_assoc;
  rewrite ?drop_app_length; try reflexivity.

Lemma report_returns_false (r : response) (data : value) (show_details : bool) :
  status_code r <> 200 ->
  returns_only (eq false) (TestCapture.report r data show_details).
Proof.
  intros Hs. unfold TestCapture.report.
  rewrite (bool_decide_eq_false_2 _ Hs). returning_solver.
Qed.

Lemma on_failure_returns_false (e : exc) :
  returns_only (eq false) (dispatch TestCapture.on_failure e).
Proof. unfold TestCapture.on_failure. returning_solver. Qed.

Lemma returns_only_weaken {A : Type} (Q Q' : A -> Prop) (m : M A) :
  (forall a, Q a -> Q' a) -> returns_only Q m -> returns_only Q' m.
Proof. intros HQ Hm w a w' H. apply HQ. exact (Hm _ _ _ H). Qed.

(** [test_capture] gives [True] only in the branch for status 200 of its
    report, which it reaches only with a decoded body. *)
Lemma inspect_true (r : response) (show_details : bool) :
  returns_only
    (fun b => b = true -> status_code r = 200 /\ exists v, json_outcome r = inr v)
    (try_except (TestCapture.inspect r show_details) TestCapture.on_failure).
Proof.
  apply returns_only_try_except.
  - unfold TestCapture.inspect. apply returns_only_bind; intros _.
    intros w b w'. unfold try_except_else, response_json.
    destruct (json_outcome r) as [msg | v] eqn:E; run.
    + intros [= <- _] [=].
    + intros Hrun ->. destruct (decide (status_code r = 200)) as [Hs | Hs]; [eauto |].
      apply (report_returns_false _ _ _ Hs) in Hrun. discriminate Hrun.
  - intros e. apply (returns_only_weaken (eq false)).
    + intros b <- [=].
    + apply on_failure_returns_false.
Qed.

(** C9: when the service answers with status 200 and a body that is not
    valid JSON, [send_to_notion_lite] and [test_capture] return [False];
    and either of them returns [True] only for a response with status 200
    whose body decodes as JSON. *)
Theorem ok_status_with_invalid_json_is_failure
    (content : string) (page_title : option string)
    (show_details : option bool) (w : world) (r : response) :
  answers w r ->
  (status_code r = 200 -> (exists msg, json_outcome r = inl msg) ->
   result (QuickCaptureClient.send_to_notion_lite content page_title) w
     = Return false
   /\ result (TestCapture.test_capture content show_details) w = Return false)
  /\ (result (QuickCaptureClient.send_to_notion_lite content page_title) w
        = Return true
      \/ result (TestCapture.test_capture content show_details) w = Return true ->
      status_code r = 200 /\ exists v, json_outcome r = inr v).
Proof.
  intros Hr. split.
  - intros Hs [msg Hj]. split; start_with Hr.
    + run. decide_status. rewrite Hj. reflexivity.
    + unfold TestCapture.inspect. run. rewrite Hj. reflexivity.
  - intros [H | H]; revert H; start_with Hr.
    + run. case_bool_decide as Hs.
      * destruct (json_outcome r) as [msg | v]; [discriminate | eauto].
      * discriminate.
    + destruct (try_except _ _ _) as [[b | e] w'] eqn:E; [| discriminate].
      intros [= ->]. exact (inspect_true _ _ _ _ _ E eq_refl).
Qed.

Lemma ok_status_with_invalid_json_is_failure_witness :
  answers (Scenario.always (Responds Scenario.ok_but_html)) Scenario.ok_but_html
  /\ result (QuickCaptureClient.send_to_notion_lite "Simple text capture" None)
       (Scenario.always (Responds Scenario.ok_but_html)) = Return false
  /\ result (TestCapture.test_capture "Simple text capture" None)
       (Scenario.always (Responds Scenario.ok_but_html)) = Return false.
Proof.
  assert (H : answers (Scenario.always (Responds Scenario.ok_but_html))
                Scenario.ok_but_html) by (intros rq; reflexivity).
  split; [exact H |].
  apply (ok_status_with_invalid_json_is_failure
           "Simple text capture" None None _ _ H); [reflexivity |].
  eexists. reflexivity.
Defined.

(** C10: in [capture_to_notion_lite], for a response whose status is not
    200: when the body text is empty the function returns [(False, {})],
    with no detail of the error; when the body text is not empty but is
    not valid JSON, the exception of the decoder sends the call to the
    generic handler, which returns [(False, {"error": message})] with the
    message of that exception, and not a classification by status. *)
Theorem non_ok_response_without_json
    (content : string) (w : world) (r : response) :
  answers w r -> status_code r <> 200 ->
  (text r = EmptyString ->
   result (WorkingCapture.capture_to_notion_lite content) w
     = Return (false, VDict ∅)
   /\ printed (WorkingCapture.capture_to_notion_lite content) w
       = [Stdout [Lit "❌ Failed with status "; FInt (status_code r)];
          Stdout [Lit "   Response: "; FStr EmptyString]])
  /\ (text r <> EmptyString -> forall msg, json_outcome r = inl msg ->
      result (WorkingCapture.capture_to_notion_lite content) w
        = Return (false, VDict {[ "error" := VStr msg ]})
      /\ printed (WorkingCapture.capture_to_notion_lite content) w
          = [Stdout [Lit "❌ Failed with status "; FInt (status_code r)];
             Stdout [Lit "   Response: "; FStr (text r)];
             Stdout [Lit "❌ Error: "; FStr msg]]).
Proof.
  intros Hr Hs. split.
  - intros Ht. split; start_with Hr; run; decide_status; rewrite Ht;
      cbn [truthy]; run; read_terminal.
  - intros Ht msg Hj.
    assert (truthy (text r) = true) as Htruthy by (destruct (text r); done).
    split; start_with Hr; run; decide_status; rewrite Htruthy, Hj;
      run; read_terminal.
Qed.

Lemma non_ok_response_without_json_witness :
  (answers (Scenario.always (Responds Scenario.bad_gateway_empty))
     Scenario.bad_gateway_empty
   /\ status_code Scenario.bad_gateway_empty <> 200
   /\ result (WorkingCapture.capture_to_notion_lite "Remember to check email")
        (Scenario.always (Responds Scenario.bad_gateway_empty))
      = Return (false, VDict ∅))
  /\ (answers (Scenario.always (Responds Scenario.bad_gateway_html))
        Scenario.bad_gateway_html
      /\ status_code Scenario.bad_gateway_html <> 200
      /\ result (WorkingCapture.capture_to_notion_lite "Remember to check email")
           (Scenario.always (Responds Scenario.bad_gateway_html))
         = Return (false,
                   VDict {[ "error" :=
                            VStr "Expecting value: line 1 column 1 (char 0)" ]})).
Proof.
  split.
  - assert (H : answers (Scenario.always (Responds Scenario.bad_gateway_empty))
                  Scenario.bad_gateway_empty) by (intros rq; reflexivity).
    assert (Hs : status_code Scenario.bad_gateway_empty <> 200) by (simpl; lia).
    split; [exact H | split; [exact Hs |]].
    apply (non_ok_response_without_json "Remember to check email" _ _ H Hs).
    reflexivity.
  - assert (H : answers (Scenario.always (Responds Scenario.bad_gateway_html))
                  Scenario.bad_gateway_html) by (intros rq; reflexivity).
    assert (Hs : status_code Scenario.bad_gateway_html <> 200) by (simpl; lia).
    split; [exact H | split; [exact Hs |]].
    apply (non_ok_response_without_json "Remember to check email" _ _ H Hs);
      [discriminate | reflexivity].
Defined.

(** ** What a failed call prints *)

Lemma try_except_print {A : Type} (line : list piece) (k : unit -> M A)
    (hs : clauses A) (w : world) :
  try_except (print line ≫= k) hs w
  = try_except (k tt) hs
      (World (service w) (sent w) (terminal w ++ [Stdout line])).
Proof. reflexivity. Qed.

(** With a response, the first thing [test_capture] prints after its
    announcement is the status code. *)
Lemma printed_test_capture_answered (content : string)
    (show_details : option bool) (w : world) (r : response) :
  answers w r ->
  exists rest,
    printed (TestCapture.test_capture content show_details) w
    = (announced content show_details
       ++ Stdout [Lit "   Status Code: "; FInt (status_code r)] :: rest)%list.
Proof.
  intros Hr. start_with Hr. unfold TestCapture.inspect.
  rewrite try_except_print.
  match goal with
  | |- context [try_except ?body ?hs ?w1] =>
      assert (quiet (try_except body hs)) as Hq
        by quiet_solver;
      destruct (Hq w1) as [_ [rest ->]]
  end.
  exists rest. read_terminal.
Qed.

(** With a response whose status is not 200, [send_to_notion_lite] prints
    the status and the body, and [capture_to_notion_lite] begins with the
    status. *)
Lemma printed_send_to_notion_lite_refused (content : string)
    (page_title : option string) (w : world) (r : response) :
  answers w r -> status_code r <> 200 ->
  printed (QuickCaptureClient.send_to_notion_lite content page_title) w
  = [Stdout [Lit "✗ Failed: "; FInt (status_code r); Lit " - "; FStr (text r)]].
Proof. intros Hr Hs. start_with Hr. run. decide_status. read_terminal. Qed.

Lemma printed_capture_to_notion_lite_refused (content : string) (w : world)
    (r : response) :
  answers w r -> status_code r <> 200 ->
  exists rest,
    printed (WorkingCapture.capture_to_notion_lite content) w
    = Stdout [Lit "❌ Failed with status "; FInt (status_code r)] :: rest.
Proof.
  intros Hr Hs. start_with Hr. run. decide_status.
  destruct (truthy (text r)); [destruct (json_outcome r) |];
    run; eexists; read_terminal.
Qed.

(** C2, as the code has it: when the service answers with status 200 and a
    JSON object, all three functions report success.
    [capture_to_notion_lite] returns [(True, body)], where [body] is the
    decoded object itself: for [{"blockId": "b1", "pageId": "p1"}] it
    carries both identifiers, and an object without them is a success all
    the same.  [send_to_notion_lite] and [test_capture] return the bare
    [True]. *)
Theorem ok_response_is_success
    (content : string) (page_title : option string)
    (show_details : option bool) (w : world) (r : response)
    (d : gmap string value) :
  answers w r -> status_code r = 200 -> json_outcome r = inr (VDict d) ->
  result (QuickCaptureClient.send_to_notion_lite content page_title) w
    = Return true
  /\ result (WorkingCapture.capture_to_notion_lite content) w
     = Return (true, VDict d)
  /\ result (TestCapture.test_capture content show_details) w = Return true.
Proof.
  intros Hr Hs Hj. repeat split.
  - start_with Hr. run. decide_status. rewrite Hj. reflexivity.
  - start_with Hr. run. decide_status. rewrite Hj. reflexivity.
  - start_with Hr. unfold TestCapture.inspect, TestCapture.report.
    destruct show_details as [[|] |]; cbn [default from_option id];
      run; rewrite Hj; run; decide_status; try reflexivity;
      (destruct (d !! "debug") as [debug |];
       [reflexivity | match goal with H : is_Some None |- _ => destruct H as [? [=]] end]).
Qed.

Lemma ok_response_is_success_witness :
  (answers (Scenario.always (Responds Scenario.captured)) Scenario.captured
   /\ result (QuickCaptureClient.send_to_notion_lite "[x] Finished the report" None)
        (Scenario.always (Responds Scenario.captured)) = Return true
   /\ result (WorkingCapture.capture_to_notion_lite "[x] Finished the report")
        (Scenario.always (Responds Scenario.captured))
      = Return (true, VDict Scenario.ids_body)
   /\ result (TestCapture.test_capture "[x] Finished the report" None)
        (Scenario.always (Responds Scenario.captured)) = Return true)
  /\ (Scenario.ids_body !! "blockId" = Some (VStr "b1")
      /\ Scenario.ids_body !! "pageId" = Some (VStr "p1"))
  /\ (answers (Scenario.always (Responds Scenario.captured_without_ids))
        Scenario.captured_without_ids
      /\ result (QuickCaptureClient.send_to_notion_lite "[x] Finished the report" None)
           (Scenario.always (Responds Scenario.captured_without_ids)) = Return true
      /\ result (WorkingCapture.capture_to_notion_lite "[x] Finished the report")
           (Scenario.always (Responds Scenario.captured_without_ids))
         = Return (true, VDict ∅)
      /\ result (TestCapture.test_capture "[x] Finished the report" None)
           (Scenario.always (Responds Scenario.captured_without_ids)) = Return true).
Proof.
  split; [| split].
  - assert (H : answers (Scenario.always (Responds Scenario.captured))
                  Scenario.captured) by (intros rq; reflexivity).
    split; [exact H |].
    apply (ok_response_is_success "[x] Finished the report" None None _ _ _ H);
      reflexivity.
  - unfold Scenario.ids_body. split.
    + apply lookup_insert_eq.
    + rewrite lookup_insert_ne by discriminate. apply lookup_singleton_eq.
  - assert (H : answers (Scenario.always (Responds Scenario.captured_without_ids))
                  Scenario.captured_without_ids) by (intros rq; reflexivity).
    split; [exact H |].
    apply (ok_response_is_success "[x] Finished the report" None None _ _ _ H);
      reflexivity.
Defined.

(** Against C2 as stated: the value [send_to_notion_lite] returns is the
    same whether the response has identifiers or not, so no reading of that
    value gives back the [blockId] of the response. *)
Lemma send_to_notion_lite_result_carries_no_ids :
  ~ exists block_id_of : bool -> option value,
      (forall b,
         result (QuickCaptureClient.send_to_notion_lite "note" None)
           (Scenario.always (Responds Scenario.captured)) = Return b ->
         block_id_of b = Some (VStr "b1"))
      /\ (forall b,
            result (QuickCaptureClient.send_to_notion_lite "note" None)
              (Scenario.always (Responds Scenario.captured_without_ids))
              = Return b ->
            block_id_of b = None).
Proof.
  intros [block_id_of [Hids Hnone]].
  specialize (Hids true eq_refl). specialize (Hnone true eq_refl).
  rewrite Hids in Hnone. discriminate Hnone.
Qed.

(** A 200 response whose JSON body is not an object: [send_to_notion_lite]
    accepts it, [capture_to_notion_lite] fails on [result.get]. *)
Lemma ok_response_with_a_list_body :
  result (QuickCaptureClient.send_to_notion_lite "note" None)
    (Scenario.always (Responds (Response 200 "[]" (inr (VList [])))))
  = Return true
  /\ result (WorkingCapture.capture_to_notion_lite "note")
       (Scenario.always (Responds (Response 200 "[]" (inr (VList [])))))
     = Return (false,
               VDict {[ "error" := VStr "'list' object has no attribute 'get'" ]}).
Proof. split; reflexivity. Qed.

(** C3, as the code has it: when the transport fails before any response is
    received (the exception being one of the transport layer), the call
    returns a failure: [False] from [send_to_notion_lite] and
    [test_capture], [(False, {"error": message})] from
    [capture_to_notion_lite].  The value returned carries no error kind.
    The failure is told on the terminal by the line of the exception
    handler ([test_capture] has one for [ConnectionError] and one for the
    other exceptions), and what the call prints then differs from what it
    prints for any response whose status is not 200. *)
Theorem transport_failure_is_reported_by_the_handler
    (content : string) (page_title : option string)
    (show_details : option bool) (w : world) (e : exc) :
  fails_with w e -> is_transport_failure e = true ->
  (result (QuickCaptureClient.send_to_notion_lite content page_title) w
     = Return false
   /\ printed (QuickCaptureClient.send_to_notion_lite content page_title) w
      = [Stdout [Lit "✗ Error: "; FStr (exc_str e)]])
  /\ (result (WorkingCapture.capture_to_notion_lite content) w
        = Return (false, VDict {[ "error" := VStr (exc_str e) ]})
      /\ printed (WorkingCapture.capture_to_notion_lite content) w
         = [Stdout [Lit "❌ Error: "; FStr (exc_str e)]])
  /\ (result (TestCapture.test_capture content show_details) w = Return false
      /\ printed (TestCapture.test_capture content show_details) w
         = (announced content show_details
            ++ if is_ConnectionError e
               then [Stdout [Lit "   ❌ Connection failed"];
                     Stdout [Lit "   Cannot connect to ";
                             FStr "http://localhost:3002"];
                     Stdout [Lit "   Is Notion Lite running?"]]
               else [Stdout [Lit "   ❌ Exception: "; FStr (exc_str e)];
                     Traceback e])%list)
  /\ (forall w' r, answers w' r -> status_code r <> 200 ->
      printed (QuickCaptureClient.send_to_notion_lite content page_title) w'
        <> printed (QuickCaptureClient.send_to_notion_lite content page_title) w
      /\ printed (WorkingCapture.capture_to_notion_lite content) w'
         <> printed (WorkingCapture.capture_to_notion_lite content) w
      /\ printed (TestCapture.test_capture content show_details) w'
         <> printed (TestCapture.test_capture content show_details) w).
Proof.
  intros He Ht. pose proof (transport_failure_is_Exception _ Ht) as Hexc.
  assert (printed (QuickCaptureClient.send_to_notion_lite content page_title) w
          = [Stdout [Lit "✗ Error: "; FStr (exc_str e)]]) as Hsend.
  { start_with He. cbn [dispatch]. rewrite Hexc. run. read_terminal. }
  assert (printed (WorkingCapture.capture_to_notion_lite content) w
          = [Stdout [Lit "❌ Error: "; FStr (exc_str e)]]) as Hcapture.
  { start_with He. cbn [dispatch]. rewrite Hexc. run. read_terminal. }
  assert (printed (TestCapture.test_capture content show_details) w
          = (announced content show_details
             ++ if is_ConnectionError e
                then [Stdout [Lit "   ❌ Connection failed"];
                      Stdout [Lit "   Cannot connect to ";
                              FStr "http://localhost:3002"];
                      Stdout [Lit "   Is Notion Lite running?"]]
                else [Stdout [Lit "   ❌ Exception: "; FStr (exc_str e)];
                      Traceback e])%list) as Htest.
  { start_with He. unfold TestCapture.on_failure. cbn [dispatch]. rewrite Hexc.
    destruct (is_ConnectionError e); run; read_terminal. }
  split; [split; [| exact Hsend] |].
  2: split; [split; [| exact Hcapture] |].
  3: split; [split; [| exact Htest] |].
  - start_with He. cbn [dispatch]. rewrite Hexc. reflexivity.
  - start_with He. cbn [dispatch]. rewrite Hexc. reflexivity.
  - start_with He. unfold TestCapture.on_failure. cbn [dispatch]. rewrite Hexc.
    destruct (is_ConnectionError e); reflexivity.
  - intros w' r Hr Hs. split; [| split].
    + rewrite Hsend, (printed_send_to_notion_lite_refused _ _ _ _ Hr Hs).
      discriminate.
    + rewrite Hcapture.
      destruct (printed_capture_to_notion_lite_refused content _ _ Hr Hs)
        as [rest ->].
      discriminate.
    + rewrite Htest.
      destruct (printed_test_capture_answered content show_details _ _ Hr)
        as [rest ->].
      intros Heq. apply app_inv_head in Heq.
      destruct (is_ConnectionError e); discriminate Heq.
Qed.

Lemma transport_failure_is_reported_by_the_handler_witness :
  fails_with (Scenario.always (Fails Scenario.refused)) Scenario.refused
  /\ is_transport_failure Scenario.refused = true
  /\ result (QuickCaptureClient.send_to_notion_lite "Remember to check email" None)
       (Scenario.always (Fails Scenario.refused)) = Return false
  /\ result (WorkingCapture.capture_to_notion_lite "Remember to check email")
       (Scenario.always (Fails Scenario.refused))
     = Return (false, VDict {[ "error" := VStr "Connection refused" ]})
  /\ result (TestCapture.test_capture "Remember to check email" None)
       (Scenario.always (Fails Scenario.refused)) = Return false.
Proof.
  assert (H : fails_with (Scenario.always (Fails Scenario.refused))
                Scenario.refused) by (intros rq; reflexivity).
  assert (Ht : is_transport_failure Scenario.refused = true) by reflexivity.
  split; [exact H | split; [exact Ht |]].
  destruct (transport_failure_is_reported_by_the_handler
              "Remember to check email" None None _ _ H Ht)
    as [[Hsend _] [[Hcapture _] [[Htest _] _]]].
  split; [exact Hsend | split; [exact Hcapture | exact Htest]].
Defined.

(** Against C3 as stated: the values returned after a refused connection
    are the values returned after a response with status 500 and the body
    [{"error":"Connection refused"}], so the caller cannot read from the
    result whether a response was received. *)
Lemma transport_failure_result_is_not_distinct :
  result (QuickCaptureClient.send_to_notion_lite "note" None)
      (Scenario.always (Fails Scenario.refused))
    = result (QuickCaptureClient.send_to_notion_lite "note" None)
        (Scenario.always (Responds Scenario.broken))
  /\ result (WorkingCapture.capture_to_notion_lite "note")
        (Scenario.always (Fails Scenario.refused))
     = result (WorkingCapture.capture_to_notion_lite "note")
         (Scenario.always (Responds Scenario.broken))
  /\ result (TestCapture.test_capture "note" None)
        (Scenario.always (Fails Scenario.refused))
     = result (TestCapture.test_capture "note" None)
         (Scenario.always (Responds Scenario.broken)).
Proof. repeat split; reflexivity. Qed.

(** In [test_capture] a read timeout is not a [ConnectionError]: it takes
    the generic handler. *)
Lemma read_timeout_takes_the_generic_handler :
  printed (TestCapture.test_capture "note" (Some false))
    (Scenario.always (Fails Scenario.timed_out))
  = [Stdout [Lit (nl +:+ "📝 Testing Capture: '"); FStr "note"; Lit "'"];
     Stdout [Lit "   ❌ Exception: "; FStr "Read timed out."];
     Traceback Scenario.timed_out].
Proof. reflexivity. Qed.

(** C4, as the code has it: when the service answers with status 401 and the
    body [{"error":"invalid key"}], the call returns a failure: [False] from
    [send_to_notion_lite] and [test_capture],
    [(False, {"error": "invalid key"})] from [capture_to_notion_lite].  The
    rejected key is told on the terminal only: [test_capture] prints its
    "Authentication failed" lines, the other two print the status 401. *)
Theorem authentication_failure_is_reported_on_the_terminal
    (content : string) (page_title : option string)
    (show_details : option bool) (w : world) (r : response) :
  answers w r -> status_code r = 401 ->
  json_outcome r = inr (VDict {[ "error" := VStr "invalid key" ]}) ->
  text r <> EmptyString ->
  (result (QuickCaptureClient.send_to_notion_lite content page_title) w
     = Return false
   /\ printed (QuickCaptureClient.send_to_notion_lite content page_title) w
      = [Stdout [Lit "✗ Failed: "; FInt 401; Lit " - "; FStr (text r)]])
  /\ (result (WorkingCapture.capture_to_notion_lite content) w
        = Return (false, VDict {[ "error" := VStr "invalid key" ]})
      /\ printed (WorkingCapture.capture_to_notion_lite content) w
         = [Stdout [Lit "❌ Failed with status "; FInt 401];
            Stdout [Lit "   Response: "; FStr (text r)]])
  /\ (result (TestCapture.test_capture content show_details) w = Return false
      /\ printed (TestCapture.test_capture content show_details) w
         = (announced content show_details
            ++ [Stdout [Lit "   Status Code: "; FInt 401];
                Stdout [Lit "   ❌ Authentication failed"];
                Stdout [Lit "   Error: "; FVal (VStr "invalid key")];
                Stdout [Lit "   Your API key: "; FStr "quick-capture-dev-key"];
                Stdout [Lit "   Received key: "; FVal (VStr "Not shown")];
                Stdout [Lit (nl +:+ "   Fix: Check your API key in Settings → Quick Capture")]])%list).
Proof.
  intros Hr Hs Hj Ht.
  assert (truthy (text r) = true) as Htruthy by (destruct (text r); done).
  assert (({[ "error" := VStr "invalid key" ]} : gmap string value) !! "error"
          = Some (VStr "invalid key")) as Herror by apply lookup_singleton_eq.
  assert (({[ "error" := VStr "invalid key" ]} : gmap string value) !! "receivedKey"
          = None) as Hkey by (apply lookup_singleton_ne; discriminate).
  repeat split.
  - start_with Hr. run. decide_status. reflexivity.
  - start_with Hr. run. decide_status. rewrite Hs. read_terminal.
  - start_with Hr. run. decide_status. rewrite Htruthy, Hj. reflexivity.
  - start_with Hr. run. decide_status. rewrite Htruthy, Hj, Hs. run. read_terminal.
  - start_with Hr. unfold TestCapture.inspect, TestCapture.report.
    run. rewrite Hj. run. decide_status. reflexivity.
  - start_with Hr. unfold TestCapture.inspect, TestCapture.report.
    run. rewrite Hj. run. decide_status. rewrite Herror, Hkey, Hs.
    read_terminal.
Qed.

Lemma authentication_failure_is_reported_on_the_terminal_witness :
  answers (Scenario.always (Responds (Scenario.rejected 401))) (Scenario.rejected 401)
  /\ status_code (Scenario.rejected 401) = 401
  /\ text (Scenario.rejected 401) <> EmptyString
  /\ result (QuickCaptureClient.send_to_notion_lite "[] Call the dentist" None)
       (Scenario.always (Responds (Scenario.rejected 401))) = Return false
  /\ result (WorkingCapture.capture_to_notion_lite "[] Call the dentist")
       (Scenario.always (Responds (Scenario.rejected 401)))
     = Return (false, VDict {[ "error" := VStr "invalid key" ]})
  /\ result (TestCapture.test_capture "[] Call the dentist" None)
       (Scenario.always (Responds (Scenario.rejected 401))) = Return false.
Proof.
  assert (H : answers (Scenario.always (Responds (Scenario.rejected 401)))
                (Scenario.rejected 401)) by (intros rq; reflexivity).
  assert (Hs : status_code (Scenario.rejected 401) = 401) by reflexivity.
  assert (Ht : text (Scenario.rejected 401) <> EmptyString) by discriminate.
  split; [exact H | split; [exact Hs | split; [exact Ht |]]].
  destruct (authentication_failure_is_reported_on_the_terminal
              "[] Call the dentist" None None _ _ H Hs eq_refl Ht)
    as [[Hsend _] [[Hcapture _] [Htest _]]].
  split; [exact Hsend | split; [exact Hcapture | exact Htest]].
Defined.

(** Against C4 as stated: the values returned for a rejected key (status
    401) are the values returned for the same body with status 400 or 503,
    and [send_to_notion_lite] and [test_capture] return that value after a
    refused connection too, so the caller cannot tell the rejected key from
    the other failures by the result. *)
Lemma authentication_failure_result_is_not_distinguishable :
  (result (QuickCaptureClient.send_to_notion_lite "note" None)
       (Scenario.always (Responds (Scenario.rejected 401)))
     = result (QuickCaptureClient.send_to_notion_lite "note" None)
         (Scenario.always (Responds (Scenario.rejected 400)))
   /\ result (QuickCaptureClient.send_to_notion_lite "note" None)
        (Scenario.always (Responds (Scenario.rejected 401)))
      = result (QuickCaptureClient.send_to_notion_lite "note" None)
          (Scenario.always (Responds (Scenario.rejected 503)))
   /\ result (QuickCaptureClient.send_to_notion_lite "note" None)
        (Scenario.always (Responds (Scenario.rejected 401)))
      = result (QuickCaptureClient.send_to_notion_lite "note" None)
          (Scenario.always (Fails Scenario.refused)))
  /\ (result (TestCapture.test_capture "note" None)
        (Scenario.always (Responds (Scenario.rejected 401)))
      = result (TestCapture.test_capture "note" None)
          (Scenario.always (Responds (Scenario.rejected 400)))
      /\ result (TestCapture.test_capture "note" None)
           (Scenario.always (Responds (Scenario.rejected 401)))
         = result (TestCapture.test_capture "note" None)
             (Scenario.always (Responds (Scenario.rejected 503)))
      /\ result (TestCapture.test_capture "note" None)
           (Scenario.always (Responds (Scenario.rejected 401)))
         = result (TestCapture.test_capture "note" None)
             (Scenario.always (Fails Scenario.refused)))
  /\ (result (WorkingCapture.capture_to_notion_lite "note")
        (Scenario.always (Responds (Scenario.rejected 401)))
      = result (WorkingCapture.capture_to_notion_lite "note")
          (Scenario.always (Responds (Scenario.rejected 400)))
      /\ result (WorkingCapture.capture_to_notion_lite "note")
           (Scenario.always (Responds (Scenario.rejected 401)))
         = result (WorkingCapture.capture_to_notion_lite "note")
             (Scenario.always (Responds (Scenario.rejected 503)))).
Proof. repeat split; reflexivity. Qed.

(** * Beyond the contract: the rest of the scripts *)

(** ** Computations that do not look at the world *)

Lemma world_eta (w : world) :
  World (service w) (sent w) (terminal w ++ []) = w.
Proof. destruct w as [sv sn tm]. simpl. rewrite app_nil_r. reflexivity. Qed.

Section Plain.
Context {A B : Type}.

Lemma plain_ret (a : A) : plain (mret a : M A).
Proof. exists (Return a), []. intros w. rewrite world_eta. reflexivity. Qed.

Lemma plain_raise (e : exc) : plain (raise e : M A).
Proof. exists (Raise e), []. intros w. rewrite world_eta. reflexivity. Qed.

Lemma plain_bind (m : M A) (f : A -> M B) :
  plain m -> (forall a, plain (f a)) -> plain (m ≫= f).
Proof.
  intros [[a | e] [l1 Hm]] Hf.
  - destruct (Hf a) as [o [l2 Hfa]]. exists o, (l1 ++ l2)%list. intros w.
    unfold mbind, M_bind. rewrite Hm, Hfa. cbn [service sent terminal].
    rewrite app_assoc. reflexivity.
  - exists (Raise e), l1. intros w. unfold mbind, M_bind. rewrite Hm. reflexivity.
Qed.

Lemma plain_if (b : bool) (m1 m2 : M A) :
  plain m1 -> plain m2 -> plain (if b then m1 else m2).
Proof. destruct b; trivial. Qed.

Lemma plain_dispatch (hs : clauses A) (e : exc) :
  Forall (fun h => forall e', plain (h.2 e')) hs -> plain (dispatch hs e).
Proof.
  induction 1 as [| [catches handler] hs Hh _ IH]; simpl.
  - apply plain_raise.
  - destruct (catches e); [apply Hh | apply IH].
Qed.

Lemma plain_try_except (body : M A) (hs : clauses A) :
  plain body -> (forall e, plain (dispatch hs e)) -> plain (try_except body hs).
Proof.
  intros [[a | e] [l1 Hb]] Hh.
  - exists (Return a), l1. intros w. unfold try_except. rewrite Hb. reflexivity.
  - destruct (Hh e) as [o [l2 He]]. exists o, (l1 ++ l2)%list. intros w.
    unfold try_except. rewrite Hb, He. cbn [service sent terminal].
    rewrite app_assoc. reflexivity.
Qed.

Lemma plain_try_except_else (body : M A) (hs : clauses B) (rest : A -> M B) :
  plain body -> (forall e, plain (dispatch hs e)) -> (forall a, plain (rest a)) ->
  plain (try_except_else body hs rest).
Proof.
  intros [[a | e] [l1 Hb]] Hh Hr.
  - destruct (Hr a) as [o [l2 Ha]]. exists o, (l1 ++ l2)%list. intros w.
    unfold try_except_else. rewrite Hb, Ha. cbn [service sent terminal].
    rewrite app_assoc. reflexivity.
  - destruct (Hh e) as [o [l2 He]]. exists o, (l1 ++ l2)%list. intros w.
    unfold try_except_else. rewrite Hb, He. cbn [service sent terminal].
    rewrite app_assoc. reflexivity.
Qed.

End Plain.

Lemma plain_print (line : list piece) : plain (print line).
Proof. exists (Return tt), [Stdout line]. reflexivity. Qed.

Lemma plain_print_exc (e : exc) : plain (print_exc e).
Proof. exists (Return tt), [Traceback e]. reflexivity. Qed.

Lemma plain_response_json (r : response) : plain (response_json r).
Proof.
  unfold response_json. destruct (json_outcome r); [apply plain_raise | apply plain_ret].
Qed.

Lemma plain_get (v : value) (key : string) (dflt : value) : plain (get v key dflt).
Proof. destruct v; first [apply plain_raise | apply plain_ret]. Qed.

Lemma plain_contains (key : string) (v : value) : plain (contains key v).
Proof. destruct v; first [apply plain_raise | apply plain_ret]. Qed.

Lemma plain_getitem (v : value) (key : string) : plain (getitem v key).
Proof.
  destruct v; try apply plain_raise. simpl.
  destruct (d !! key); [apply plain_ret | apply plain_raise].
Qed.

Create HintDb plain.
#[local] Hint Resolve plain_ret plain_raise plain_print plain_print_exc
  plain_response_json plain_get plain_contains plain_getitem : plain.

Ltac plain_solver :=
  repeat first
    [ solve [auto with plain]
    | apply plain_if | apply plain_bind | apply plain_try_except
    | apply plain_try_except_else
    | apply plain_dispatch | apply Forall_cons | apply Forall_nil
    | progress cbn [snd] | intros ? ].

Lemma plain_inspect (r : response) (show_details : bool) :
  plain (try_except (TestCapture.inspect r show_details) TestCapture.on_failure).
Proof.
  unfold TestCapture.inspect, TestCapture.report, TestCapture.on_failure.
  plain_solver.
Qed.

Lemma plain_on_failure (e : exc) : plain (dispatch TestCapture.on_failure e).
Proof. unfold TestCapture.on_failure. plain_solver. Qed.

(** What a plain computation shows. *)
Lemma plain_run {A : Type} (m : M A) :
  plain m ->
  exists o lines, forall w,
    result m w = o /\ printed m w = lines
    /\ service (snd (m w)) = service w /\ sent (snd (m w)) = sent w.
Proof.
  intros [o [lines H]]. exists o, lines. intros w.
  unfold result, printed. rewrite H. cbn [fst snd service sent terminal].
  rewrite drop_app_length. auto.
Qed.

(** ** A request and what follows it *)

Lemma try_get_run {A : Type} (url : string) (k : response -> M A)
    (hs : clauses A) (w : world) :
  try_except (requests_get url ≫= k) hs w
  = let rq := HttpRequest GET url ∅ VNone true in
    let w1 := World (service w) (sent w ++ [rq]) (terminal w) in
    match service w (sent w) rq with
    | Responds r => try_except (k r) hs w1
    | Fails e => dispatch hs e w1
    end.
Proof.
  unfold try_except, mbind, M_bind, requests_get; simpl.
  destruct (service w (sent w) _); reflexivity.
Qed.

(** After the request, the rest of such a [try] depends on the reply
    alone, and the service stays what it is. *)
Lemma try_post_after_reply {A : Type} (url : string)
    (headers : gmap string string) (json : value) (redirects : bool)
    (k : response -> M A) (hs : clauses A) (rp : reply) :
  (forall r, plain (k r)) -> (forall e, plain (dispatch hs e)) ->
  exists o lines, forall w,
    replies w rp ->
    exists rq,
      try_except (requests_post url headers json redirects ≫= k) hs w
      = (o, World (service w) (sent w ++ [rq]) (terminal w ++ lines)).
Proof.
  intros Hk Hh. destruct rp as [r | e].
  - destruct (plain_try_except _ hs (Hk r) Hh) as [o [lines H]].
    exists o, lines. intros w Hw. eexists. rewrite try_post_run. cbv zeta.
    rewrite (Hw _), H. reflexivity.
  - destruct (Hh e) as [o [lines H]].
    exists o, lines. intros w Hw. eexists. rewrite try_post_run. cbv zeta.
    rewrite (Hw _), H. reflexivity.
Qed.

Lemma try_post_steady {A : Type} (url : string)
    (headers : gmap string string) (json : value) (redirects : bool)
    (k : response -> M A) (hs : clauses A) (w : world) :
  (forall r, plain (k r)) -> (forall e, plain (dispatch hs e)) ->
  service (snd (try_except (requests_post url headers json redirects ≫= k) hs w))
  = service w.
Proof.
  intros Hk Hh. rewrite try_post_run. cbv zeta.
  destruct (service w (sent w) _) as [r | e].
  - destruct (plain_try_except _ hs (Hk r) Hh) as [o [lines ->]]. reflexivity.
  - destruct (Hh e) as [o [lines ->]]. reflexivity.
Qed.

Lemma try_get_after_reply {A : Type} (url : string)
    (k : response -> M A) (hs : clauses A) (rp : reply) :
  (forall r, plain (k r)) -> (forall e, plain (dispatch hs e)) ->
  exists o lines, forall w,
    replies w rp ->
    try_except (requests_get url ≫= k) hs w
    = (o, World (service w)
            (sent w ++ [HttpRequest GET url ∅ VNone true])
            (terminal w ++ lines)).
Proof.
  intros Hk Hh. destruct rp as [r | e].
  - destruct (plain_try_except _ hs (Hk r) Hh) as [o [lines H]].
    exists o, lines. intros w Hw. rewrite try_get_run. cbv zeta.
    rewrite (Hw _), H. reflexivity.
  - destruct (Hh e) as [o [lines H]].
    exists o, lines. intros w Hw. rewrite try_get_run. cbv zeta.
    rewrite (Hw _), H. reflexivity.
Qed.


(** ** The capture functions, given the reply *)

Lemma send_to_notion_lite_after_reply (content : string)
    (page_title : option string) (rp : reply) :
  exists o lines, forall w,
    replies w rp ->
    exists rq,
      QuickCaptureClient.send_to_notion_lite content page_title w
      = (o, World (service w) (sent w ++ [rq]) (terminal w ++ lines)).
Proof.
  unfold QuickCaptureClient.send_to_notion_lite.
  apply try_post_after_reply; plain_solver.
Qed.

Lemma capture_to_notion_lite_after_reply (content : string) (rp : reply) :
  exists o lines, forall w,
    replies w rp ->
    exists rq,
      WorkingCapture.capture_to_notion_lite content w
      = (o, World (service w) (sent w ++ [rq]) (terminal w ++ lines)).
Proof.
  unfold WorkingCapture.capture_to_notion_lite.
  apply try_post_after_reply; plain_solver.
Qed.

Lemma test_capture_after_reply (content : string)
    (show_details : option bool) (rp : reply) :
  exists o lines, forall w,
    replies w rp ->
    exists rq,
      TestCapture.test_capture content show_details w
      = (o, World (service w) (sent w ++ [rq]) (terminal w ++ lines)).
Proof.
  destruct rp as [r | e].
  - destruct (plain_inspect r (default true show_details)) as [o [lines H]].
    exists o, (announced content show_details ++ lines)%list. intros w Hw.
    eexists. rewrite test_capture_run. cbv zeta. rewrite (Hw _), H.
    cbn [service sent terminal]. rewrite app_assoc. reflexivity.
  - destruct (plain_on_failure e) as [o [lines H]].
    exists o, (announced content show_details ++ lines)%list. intros w Hw.
    eexists. rewrite test_capture_run. cbv zeta. rewrite (Hw _), H.
    cbn [service sent terminal]. rewrite app_assoc. reflexivity.
Qed.

(** The three functions leave the service as it is. *)
Lemma service_send_to_notion_lite (content : string)
    (page_title : option string) (w : world) :
  service (snd (QuickCaptureClient.send_to_notion_lite content page_title w))
  = service w.
Proof.
  unfold QuickCaptureClient.send_to_notion_lite.
  apply try_post_steady; plain_solver.
Qed.

Lemma service_capture_to_notion_lite (content : string) (w : world) :
  service (snd (WorkingCapture.capture_to_notion_lite content w)) = service w.
Proof.
  unfold WorkingCapture.capture_to_notion_lite.
  apply try_post_steady; plain_solver.
Qed.

Lemma service_test_capture (content : string) (show_details : option bool)
    (w : world) :
  service (snd (TestCapture.test_capture content show_details w)) = service w.
Proof.
  rewrite test_capture_run. cbv zeta.
  destruct (service w (sent w) _) as [r | e].
  - destruct (plain_inspect r (default true show_details)) as [o [lines ->]].
    reflexivity.
  - destruct (plain_on_failure e) as [o [lines ->]]. reflexivity.
Qed.

(** The three functions return when failures are transport failures, and
    the world they leave has the same service and one more request. *)
Lemma transport_failures_only_steady (w w' : world) :
  service w' = service w -> transport_failures_only w -> transport_failures_only w'.
Proof. intros Hs Hw history rq e. rewrite Hs. apply Hw. Qed.

Lemma send_to_notion_lite_step (content : string) (page_title : option string)
    (w : world) :
  transport_failures_only w ->
  exists b w',
    QuickCaptureClient.send_to_notion_lite content page_title w = (Return b, w')
    /\ transport_failures_only w'
    /\ sent w'
       = (sent w ++ [capture_request "quick-capture-dev-key" "YOUR_USER_ID"
                       content (default "Inbox" page_title)])%list.
Proof.
  intros Hw.
  pose proof (sent_send_to_notion_lite content page_title w) as Hsent.
  pose proof (service_send_to_notion_lite content page_title w) as Hservice.
  assert (exists b w',
            QuickCaptureClient.send_to_notion_lite content page_title w
            = (Return b, w')) as [b [w' E]].
  { unfold QuickCaptureClient.send_to_notion_lite.
    rewrite try_post_run. cbv zeta.
    destruct (service w (sent w) _) as [r | e] eqn:E.
    - apply (try_except_returns is_Exception).
      + raising_solver.
      + intros e He w1. cbn [dispatch]. rewrite He. run. eauto.
    - apply Hw, transport_failure_is_Exception in E.
      cbn [dispatch]. rewrite E. run. eauto. }
  rewrite E in Hsent, Hservice. exists b, w'.
  eauto using transport_failures_only_steady.
Qed.

Lemma capture_to_notion_lite_step (content : string) (w : world) :
  transport_failures_only w ->
  exists p w',
    WorkingCapture.capture_to_notion_lite content w = (Return p, w')
    /\ transport_failures_only w'
    /\ sent w'
       = (sent w ++ [capture_request "quick-capture-dev-key"
                       "0bnt7oYu8zfqw09XRd3otDT8Fbo2" content "Inbox"])%list.
Proof.
  intros Hw.
  pose proof (sent_capture_to_notion_lite content w) as Hsent.
  pose proof (service_capture_to_notion_lite content w) as Hservice.
  assert (exists p w',
            WorkingCapture.capture_to_notion_lite content w = (Return p, w'))
    as [p [w' E]].
  { unfold WorkingCapture.capture_to_notion_lite.
    rewrite try_post_run. cbv zeta.
    destruct (service w (sent w) _) as [r | e] eqn:E.
    - apply (try_except_returns is_Exception).
      + raising_solver.
      + intros e He w1. cbn [dispatch]. rewrite He. run. eauto.
    - apply Hw, transport_failure_is_Exception in E.
      cbn [dispatch]. rewrite E. run. eauto. }
  rewrite E in Hsent, Hservice. exists p, w'.
  eauto using transport_failures_only_steady.
Qed.

Lemma test_capture_step (content : string) (show_details : option bool)
    (w : world) :
  transport_failures_only w ->
  exists b w',
    TestCapture.test_capture content show_details w = (Return b, w')
    /\ transport_failures_only w'
    /\ sent w'
       = (sent w ++ [capture_request "quick-capture-dev-key"
                       "YOUR_USER_ID_HERE" content "Inbox"])%list.
Proof.
  intros Hw.
  pose proof (sent_test_capture content show_details w) as Hsent.
  pose proof (service_test_capture content show_details w) as Hservice.
  assert (exists b w',
            TestCapture.test_capture content show_details w = (Return b, w'))
    as [b [w' E]].
  { rewrite test_capture_run. cbv zeta.
    destruct (service w (sent w) _) as [r | e] eqn:E.
    - apply (try_except_returns is_Exception).
      + apply raises_only_inspect.
      + apply on_failure_returns.
    - apply Hw, transport_failure_is_Exception in E.
      apply on_failure_returns, E. }
  rewrite E in Hsent, Hservice. exists b, w'.
  eauto using transport_failures_only_steady.
Qed.

(** ** The capture functions, once more *)

(** X1: what [send_to_notion_lite], [capture_to_notion_lite] and
    [test_capture] return and print depends on the reply to their request
    alone, not on the requests made or the lines printed before: nothing is
    kept from one call to the next. *)
Theorem capture_depends_on_the_reply_alone
    (content : string) (page_title : option string)
    (show_details : option bool) (rp : reply) (w w' : world) :
  replies w rp -> replies w' rp ->
  (result (QuickCaptureClient.send_to_notion_lite content page_title) w
     = result (QuickCaptureClient.send_to_notion_lite content page_title) w'
   /\ printed (QuickCaptureClient.send_to_notion_lite content page_title) w
      = printed (QuickCaptureClient.send_to_notion_lite content page_title) w')
  /\ (result (WorkingCapture.capture_to_notion_lite content) w
        = result (WorkingCapture.capture_to_notion_lite content) w'
      /\ printed (WorkingCapture.capture_to_notion_lite content) w
         = printed (WorkingCapture.capture_to_notion_lite content) w')
  /\ (result (TestCapture.test_capture content show_details) w
        = result (TestCapture.test_capture content show_details) w'
      /\ printed (TestCapture.test_capture content show_details) w
         = printed (TestCapture.test_capture content show_details) w').
Proof.
  intros Hw Hw'. unfold result, printed. split; [| split].
  - destruct (send_to_notion_lite_after_reply content page_title rp)
      as [o [lines H]].
    destruct (H w Hw) as [rq ->]. destruct (H w' Hw') as [rq' ->].
    cbn [fst snd terminal]. rewrite !drop_app_length. auto.
  - destruct (capture_to_notion_lite_after_reply content rp) as [o [lines H]].
    destruct (H w Hw) as [rq ->]. destruct (H w' Hw') as [rq' ->].
    cbn [fst snd terminal]. rewrite !drop_app_length. auto.
  - destruct (test_capture_after_reply content show_details rp)
      as [o [lines H]].
    destruct (H w Hw) as [rq ->]. destruct (H w' Hw') as [rq' ->].
    cbn [fst snd terminal]. rewrite !drop_app_length. auto.
Qed.

Lemma example_replies (rp : reply) : replies (Scenario.always rp) rp.
Proof. intros rq. reflexivity. Qed.

Lemma capture_depends_on_the_reply_alone_witness :
  result (TestCapture.test_capture "[] Call the dentist" None)
    (Scenario.always (Responds Scenario.captured))
  = result (TestCapture.test_capture "[] Call the dentist" None)
      (World (fun _ _ => Responds Scenario.captured)
         [capture_request "k" "u" "earlier" "Inbox"]
         [Stdout [Lit "earlier output"]]).
Proof.
  assert (replies (World (fun _ _ => Responds Scenario.captured)
                     [capture_request "k" "u" "earlier" "Inbox"]
                     [Stdout [Lit "earlier output"]])
            (Responds Scenario.captured)) as H by (intros rq; reflexivity).
  destruct (capture_depends_on_the_reply_alone "[] Call the dentist" None None
              _ _ _ (example_replies (Responds Scenario.captured)) H)
    as [_ [_ [Htest _]]].
  exact Htest.
Defined.

(** X2: [capture_to_notion_lite] reports success only for a response with
    status 200 whose body decodes to a JSON object, and what it returns
    then is that object.  A body that is valid JSON but not an object (a
    list, a string, a number, [null]) makes [result.get] fail, and the call
    reports failure with the text of that [AttributeError]. *)
Theorem capture_to_notion_lite_succeeds_only_on_objects
    (content : string) (w : world) (r : response) :
  answers w r ->
  (forall body,
     result (WorkingCapture.capture_to_notion_lite content) w
       = Return (true, body) ->
     status_code r = 200 /\ json_outcome r = inr body /\ exists d, body = VDict d)
  /\ (forall v,
        status_code r = 200 -> json_outcome r = inr v ->
        (forall d, v <> VDict d) ->
        result (WorkingCapture.capture_to_notion_lite content) w
        = Return (false,
                  VDict {[ "error" :=
                           VStr ("'" +:+ type_name v
                                 +:+ "' object has no attribute 'get'") ]})).
Proof.
  intros Hr. split.
  - intros body. start_with Hr. run. case_bool_decide as Hs.
    + destruct (json_outcome r) as [msg | v]; run; [discriminate |].
      destruct v; run; intros [= <-]; try discriminate; eauto.
    + destruct (truthy (text r)); [destruct (json_outcome r) |]; run; discriminate.
  - intros v Hs Hj Hv. start_with Hr. run. decide_status. rewrite Hj. run.
    destruct v; run; try reflexivity. destruct (Hv d eq_refl).
Qed.

Lemma capture_to_notion_lite_succeeds_only_on_objects_witness :
  result (WorkingCapture.capture_to_notion_lite "note")
    (Scenario.always (Responds (Response 200 "[]" (inr (VList [])))))
  = Return (false,
            VDict {[ "error" := VStr "'list' object has no attribute 'get'" ]}).
Proof.
  destruct (capture_to_notion_lite_succeeds_only_on_objects "note" _ _
              (example_replies
                 (Responds (Response 200 "[]" (inr (VList []))))))
    as [_ H].
  apply (H (VList [])); [reflexivity | reflexivity | discriminate].
Defined.

(** X3: the verdict of [test_capture] depends on [show_details].  For a
    response with status 200 whose body is valid JSON but not an object, the
    call returns [True] when [show_details] is [False], and [False] when it
    is [True] or left out, because only then [data.get] is called. *)
Theorem test_capture_verdict_depends_on_show_details
    (content : string) (w : world) (r : response) (v : value) :
  answers w r -> status_code r = 200 -> json_outcome r = inr v ->
  (forall d, v <> VDict d) ->
  result (TestCapture.test_capture content (Some false)) w = Return true
  /\ result (TestCapture.test_capture content (Some true)) w = Return false
  /\ result (TestCapture.test_capture content None) w = Return false.
Proof.
  intros Hr Hs Hj Hv.
  repeat split; start_with Hr; unfold TestCapture.inspect, TestCapture.report;
    cbn [default from_option id]; run; rewrite Hj; run; decide_status;
    try reflexivity;
    (destruct v; run; try reflexivity; destruct (Hv d eq_refl)).
Qed.

Lemma test_capture_verdict_depends_on_show_details_witness :
  result (TestCapture.test_capture "note" (Some false))
      (Scenario.always (Responds (Response 200 "[]" (inr (VList [])))))
    = Return true
  /\ result (TestCapture.test_capture "note" (Some true))
       (Scenario.always (Responds (Response 200 "[]" (inr (VList [])))))
     = Return false
  /\ result (TestCapture.test_capture "note" None)
       (Scenario.always (Responds (Response 200 "[]" (inr (VList [])))))
     = Return false.
Proof.
  apply (test_capture_verdict_depends_on_show_details "note" _ _ (VList [])
           (example_replies _)); [reflexivity | reflexivity | discriminate].
Defined.

(** X4: [send_to_notion_lite] returns [True] exactly when the status is 200
    and the body decodes as JSON, whatever the JSON value is, and [False]
    for every other response. *)
Theorem send_to_notion_lite_verdict
    (content : string) (page_title : option string) (w : world) (r : response) :
  answers w r ->
  (result (QuickCaptureClient.send_to_notion_lite content page_title) w
     = Return true
   <-> status_code r = 200 /\ exists v, json_outcome r = inr v)
  /\ (result (QuickCaptureClient.send_to_notion_lite content page_title) w
        = Return true
      \/ result (QuickCaptureClient.send_to_notion_lite content page_title) w
         = Return false).
Proof.
  intros Hr. start_with Hr. run. case_bool_decide as Hs.
  - destruct (json_outcome r) as [msg | v]; run.
    + split; [| auto]. split; [discriminate | intros [_ [v [=]]]].
    + split; [| auto]. split; eauto.
  - split; [| auto]. split; [discriminate | intros [Hs' _]; contradiction].
Qed.

Lemma send_to_notion_lite_verdict_witness :
  result (QuickCaptureClient.send_to_notion_lite "note" None)
    (Scenario.always (Responds (Response 200 "[]" (inr (VList [])))))
  = Return true.
Proof.
  destruct (send_to_notion_lite_verdict "note" None _ _
              (example_replies
                 (Responds (Response 200 "[]" (inr (VList []))))))
    as [[_ H] _].
  apply H. split; [reflexivity | eexists; reflexivity].
Defined.

(** X5: for a response whose status is not 200 and whose body is not empty
    and decodes as JSON, [capture_to_notion_lite] hands the decoded body to
    its caller as it is, whatever JSON value it is. *)
Theorem capture_to_notion_lite_passes_the_error_body
    (content : string) (w : world) (r : response) (v : value) :
  answers w r -> status_code r <> 200 -> text r <> EmptyString ->
  json_outcome r = inr v ->
  result (WorkingCapture.capture_to_notion_lite content) w = Return (false, v).
Proof.
  intros Hr Hs Ht Hj.
  assert (truthy (text r) = true) as Htruthy by (destruct (text r); done).
  start_with Hr. run. decide_status. rewrite Htruthy, Hj. reflexivity.
Qed.

Lemma capture_to_notion_lite_passes_the_error_body_witness :
  result (WorkingCapture.capture_to_notion_lite "note")
    (Scenario.always (Responds Scenario.broken))
  = Return (false, VDict {[ "error" := VStr "Connection refused" ]}).
Proof.
  apply (capture_to_notion_lite_passes_the_error_body "note" _ _ _
           (example_replies _)); [simpl; lia | discriminate | reflexivity].
Defined.

(** X6: the one request of a capture is the POST with exactly the two
    headers [x-api-key], holding the configured key, and [Content-Type];
    its [userId] is the configured user; its [pageTitle] is the title the
    caller gave to [send_to_notion_lite], whatever it is, and ["Inbox"]
    otherwise; and redirects are to be followed. *)
Theorem capture_request_in_full
    (content : string) (page_title : option string)
    (show_details : option bool) (w : world) :
  posted (QuickCaptureClient.send_to_notion_lite content page_title) w
    = [capture_request QuickCaptureClient.API_KEY QuickCaptureClient.USER_ID
         content (default "Inbox" page_title)]
  /\ posted (WorkingCapture.capture_to_notion_lite content) w
     = [capture_request WorkingCapture.API_KEY WorkingCapture.USER_ID
          content "Inbox"]
  /\ posted (TestCapture.test_capture content show_details) w
     = [capture_request TestCapture.API_KEY TestCapture.USER_ID content "Inbox"]
  /\ (forall api_key user_id title,
        rq_headers (capture_request api_key user_id content title)
          = {[ "x-api-key" := api_key; "Content-Type" := "application/json" ]}
        /\ body_field "userId" (capture_request api_key user_id content title)
           = Some (VStr user_id)
        /\ body_field "pageTitle" (capture_request api_key user_id content title)
           = Some (VStr title)
        /\ rq_allow_redirects (capture_request api_key user_id content title)
           = true).
Proof.
  split; [| split; [| split]].
  - apply posted_of_sent, sent_send_to_notion_lite.
  - apply posted_of_sent, sent_capture_to_notion_lite.
  - apply posted_of_sent, sent_test_capture.
  - intros api_key user_id title. unfold body_field, capture_request.
    cbn [rq_headers rq_json rq_allow_redirects].
    split; [reflexivity | split; [| split; [| reflexivity]]].
    + rewrite lookup_insert_ne by discriminate. apply lookup_insert_eq.
    + rewrite !lookup_insert_ne by discriminate. apply lookup_singleton_eq.
Qed.

(** X7: nothing is deduplicated: calling a capture function twice with the
    same content posts the same request twice, also when the first call
    fails. *)
Theorem repeated_capture_is_posted_twice
    (content : string) (page_title : option string) (w : world) :
  transport_failures_only w ->
  posted (QuickCaptureClient.send_to_notion_lite content page_title
          ≫= fun _ => QuickCaptureClient.send_to_notion_lite content page_title) w
    = [capture_request "quick-capture-dev-key" "YOUR_USER_ID" content
         (default "Inbox" page_title);
       capture_request "quick-capture-dev-key" "YOUR_USER_ID" content
         (default "Inbox" page_title)]
  /\ posted (WorkingCapture.capture_to_notion_lite content
             ≫= fun _ => WorkingCapture.capture_to_notion_lite content) w
     = [capture_request "quick-capture-dev-key" "0bnt7oYu8zfqw09XRd3otDT8Fbo2"
          content "Inbox";
        capture_request "quick-capture-dev-key" "0bnt7oYu8zfqw09XRd3otDT8Fbo2"
          content "Inbox"].
Proof.
  intros Hw. split; apply posted_of_sent; unfold mbind, M_bind.
  - destruct (send_to_notion_lite_step content page_title w Hw)
      as [b [w1 [-> [_ Hs1]]]].
    rewrite sent_send_to_notion_lite, Hs1, <- app_assoc. reflexivity.
  - destruct (capture_to_notion_lite_step content w Hw) as [p [w1 [-> [_ Hs1]]]].
    rewrite sent_capture_to_notion_lite, Hs1, <- app_assoc. reflexivity.
Qed.

Lemma example_transport_failures_only (rp : reply) :
  (forall e, rp = Fails e -> is_transport_failure e = true) ->
  transport_failures_only (Scenario.always rp).
Proof. intros H history rq e. apply H. Qed.

Lemma repeated_capture_is_posted_twice_witness :
  body_field "content"
    <$> posted (QuickCaptureClient.send_to_notion_lite "same note" None
                ≫= fun _ => QuickCaptureClient.send_to_notion_lite "same note" None)
          (Scenario.always (Fails Scenario.refused))
  = [Some (VStr "same note"); Some (VStr "same note")].
Proof.
  assert (transport_failures_only (Scenario.always (Fails Scenario.refused)))
    as H by (apply example_transport_failures_only; intros e [= <-]; reflexivity).
  destruct (repeated_capture_is_posted_twice "same note" None _ H) as [-> _].
  unfold body_field, capture_request. cbn [fmap list_fmap rq_json].
  rewrite lookup_insert_eq. reflexivity.
Defined.

(** ** [test_api_status] *)

Lemma plain_test_api_status_rest (r : response) :
  plain
    (print [Lit "   Status Code: "; FInt (status_code r)];;
     if bool_decide (status_code r = 200) then
       print [Lit "   ✅ API is accessible"];;
       data ← response_json r;
       message ← get data "message" (VStr "No message");
       print [Lit "   Message: "; FVal message];;
       mret true
     else
       print [Lit "   ❌ Unexpected status code: "; FInt (status_code r)];;
       mret false).
Proof. plain_solver. Qed.

(** [test_api_status] announces the check, makes the request and goes on
    with the response or with the exception. *)
Lemma test_api_status_run (w : world) :
  exists (k : response -> M bool) (hs : clauses bool),
    (forall r, plain (k r)) /\ (forall e, plain (dispatch hs e))
    /\ (forall r, raises_only is_Exception (k r))
    /\ (forall e, is_Exception e = true -> never_raises (dispatch hs e))
    /\ TestCapture.test_api_status w
       = try_except (requests_get "http://localhost:3002/api/capture" ≫= k) hs
           (World (service w) (sent w)
              (terminal w
               ++ [Stdout [Lit (nl +:+ "🔍 Testing API Status...")];
                   Stdout [Lit "   URL: "; FStr "http://localhost:3002";
                           Lit "/api/capture"]])).
Proof.
  unfold TestCapture.test_api_status.
  eexists _, _. split; [| split; [| split; [| split]]].
  5: { rewrite !bind_print. cbn [service sent terminal].
       rewrite <- app_assoc. reflexivity. }
  - intros r. apply plain_test_api_status_rest.
  - plain_solver.
  - raising_solver.
  - intros e He w1. cbn [dispatch]. rewrite He.
    destruct (is_ConnectionError e); run; eauto.
Qed.

Lemma test_api_status_returns (w : world) :
  transport_failures_only w ->
  exists b w', TestCapture.test_api_status w = (Return b, w').
Proof.
  intros Hw.
  destruct (test_api_status_run w) as [k [hs [_ [_ [Hk [Hh ->]]]]]].
  rewrite try_get_run. cbv zeta. cbn [service sent terminal].
  destruct (service w (sent w) _) as [r | e] eqn:E.
  - apply (try_except_returns is_Exception); auto.
  - apply Hh. apply Hw, transport_failure_is_Exception in E. exact E.
Qed.


(** X9: [test_api_status] never raises as long as failures are transport
    failures, and after a transport failure it returns [False]. *)
Theorem test_api_status_survives_transport_failures (w : world) :
  transport_failures_only w ->
  (exists b w', TestCapture.test_api_status w = (Return b, w'))
  /\ (forall e, fails_with w e -> result TestCapture.test_api_status w = Return false).
Proof.
  intros Hw. split.
  - apply test_api_status_returns, Hw.
  - intros e He. pose proof (Hw _ _ _ (He (HttpRequest GET EmptyString ∅ VNone true)))
      as Ht. apply transport_failure_is_Exception in Ht.
    unfold result, TestCapture.test_api_status. rewrite !bind_print, try_get_run.
    cbv zeta. cbn [service sent terminal]. rewrite (He _).
    cbn [dispatch]. rewrite Ht. destruct (is_ConnectionError e); reflexivity.
Qed.

Lemma test_api_status_survives_transport_failures_witness :
  result TestCapture.test_api_status (Scenario.always (Fails Scenario.timed_out))
  = Return false.
Proof.
  assert (transport_failures_only (Scenario.always (Fails Scenario.timed_out)))
    as H by (apply example_transport_failures_only; intros e [= <-]; reflexivity).
  destruct (test_api_status_survives_transport_failures _ H) as [_ Hf].
  apply (Hf Scenario.timed_out). intros rq. reflexivity.
Defined.

(** X10: [test_api_status] finds the API accessible exactly when the reply
    has status 200 and a body that decodes to a JSON object; with any other
    response it returns [False]. *)
Theorem test_api_status_verdict (w : world) (r : response) :
  answers w r ->
  (result TestCapture.test_api_status w = Return true
   <-> status_code r = 200 /\ exists d, json_outcome r = inr (VDict d))
  /\ (result TestCapture.test_api_status w = Return true
      \/ result TestCapture.test_api_status w = Return false).
Proof.
  intros Hr. unfold result, TestCapture.test_api_status.
  rewrite !bind_print, try_get_run. cbv zeta. cbn [service sent terminal].
  rewrite (Hr _). run. case_bool_decide as Hs.
  - destruct (json_outcome r) as [msg | v]; run.
    + split; [| auto]. split; [discriminate | intros [_ [d [=]]]].
    + destruct v; run; (split; [| auto]);
        (split; [first [discriminate | eauto] | intros [_ [d' [=]]]; reflexivity]).
  - split; [| auto]. split; [discriminate | intros [Hs' _]; contradiction].
Qed.

Lemma test_api_status_verdict_witness :
  result TestCapture.test_api_status
    (Scenario.always (Responds Scenario.captured_without_ids))
  = Return true.
Proof.
  destruct (test_api_status_verdict _ _
              (example_replies (Responds Scenario.captured_without_ids)))
    as [[_ H] _].
  apply H. split; [reflexivity | eexists; reflexivity].
Defined.

(** ** [on_capture] and the script of working-capture.py *)

(** A [try] around [requests.post] followed by plain code adds one request
    and some lines, and changes nothing else. *)
Lemma try_post_frame {A : Type} (url : string)
    (headers : gmap string string) (json : value) (redirects : bool)
    (k : response -> M A) (hs : clauses A) (w : world) :
  (forall r, plain (k r)) -> (forall e, plain (dispatch hs e)) ->
  exists o lines,
    try_except (requests_post url headers json redirects ≫= k) hs w
    = (o, World (service w)
            (sent w ++ [HttpRequest POST url headers json redirects])
            (terminal w ++ lines)).
Proof.
  intros Hk Hh. rewrite try_post_run. cbv zeta.
  destruct (service w (sent w) _) as [r | e].
  - destruct (plain_try_except _ hs (Hk r) Hh) as [o [lines ->]]. eauto.
  - destruct (Hh e) as [o [lines ->]]. eauto.
Qed.

Lemma capture_to_notion_lite_frame (content : string) (w : world) :
  exists o lines,
    WorkingCapture.capture_to_notion_lite content w
    = (o, World (service w)
            (sent w ++ [capture_request "quick-capture-dev-key"
                          "0bnt7oYu8zfqw09XRd3otDT8Fbo2" content "Inbox"])
            (terminal w ++ lines)).
Proof.
  unfold WorkingCapture.capture_to_notion_lite.
  apply try_post_frame; plain_solver.
Qed.

(** X11: [on_capture] returns the success flag of the capture it makes,
    makes no request of its own, and adds one line to what the capture
    printed: "Captured to Notion Lite!" when it returns [True], "Capture
    failed!" when it returns [False]. *)
Theorem on_capture_reports_the_capture (text : string) (w : world) :
  transport_failures_only w ->
  exists success response,
    result (WorkingCapture.capture_to_notion_lite text) w
      = Return (success, response)
    /\ result (WorkingCapture.on_capture text) w = Return success
    /\ posted (WorkingCapture.on_capture text) w
       = posted (WorkingCapture.capture_to_notion_lite text) w
    /\ printed (WorkingCapture.on_capture text) w
       = (printed (WorkingCapture.capture_to_notion_lite text) w
          ++ [Stdout [Lit (if success : bool
                           then "Captured to Notion Lite!"
                           else "Capture failed!")]])%list.
Proof.
  intros Hw.
  destruct (capture_to_notion_lite_step text w Hw) as [[success response] [w' [E _]]].
  destruct (capture_to_notion_lite_frame text w) as [o [lines F]].
  rewrite F in E. injection E as -> <-.
  exists success, response.
  unfold result, posted, printed, WorkingCapture.on_capture, mbind, M_bind.
  rewrite F. destruct success; run; cbn [fst snd sent terminal];
    rewrite <- ?app_assoc, !drop_app_length; auto.
Qed.

Lemma on_capture_reports_the_capture_witness :
  result (WorkingCapture.on_capture "[] Call the dentist")
    (Scenario.always (Responds Scenario.captured)) = Return true
  /\ result (WorkingCapture.on_capture "[] Call the dentist")
       (Scenario.always (Fails Scenario.refused)) = Return false.
Proof.
  split.
  - assert (transport_failures_only (Scenario.always (Responds Scenario.captured)))
      as H by (apply example_transport_failures_only; discriminate).
    destruct (on_capture_reports_the_capture "[] Call the dentist" _ H)
      as [success [response [H1 [H2 _]]]].
    rewrite H2. injection H1 as <- _. reflexivity.
  - assert (transport_failures_only (Scenario.always (Fails Scenario.refused)))
      as H by (apply example_transport_failures_only; intros e [= <-]; reflexivity).
    destruct (on_capture_reports_the_capture "[] Call the dentist" _ H)
      as [success [response [H1 [H2 _]]]].
    rewrite H2. injection H1 as <- _. reflexivity.
Defined.

(** The loop over the items: one capture per item, in order. *)
Lemma capture_items_run (items : list string) (w : world) :
  transport_failures_only w ->
  exists w',
    WorkingCapture.capture_items items w = (Return tt, w')
    /\ transport_failures_only w'
    /\ sent w'
       = (sent w
          ++ ((fun item =>
                 capture_request "quick-capture-dev-key"
                   "0bnt7oYu8zfqw09XRd3otDT8Fbo2" item "Inbox") <$> items))%list.
Proof.
  revert w. induction items as [| item items IH]; intros w Hw.
  - exists w. simpl. rewrite app_nil_r. auto.
  - cbn [WorkingCapture.capture_items]. rewrite bind_print.
    match goal with
    | |- context [World (service w) (sent w) ?t] =>
        assert (transport_failures_only (World (service w) (sent w) t)) as Hw1
          by exact Hw;
        destruct (capture_to_notion_lite_step item _ Hw1)
          as [[success response] [w2 [E [Hw2 Hs2]]]]
    end.
    unfold mbind at 1, M_bind at 1. rewrite E.
    assert (exists w3,
              ((if negb success
                then print [Lit "Failed: "; FVal response]
                else mret tt) w2) = (Return tt, w3)
              /\ service w3 = service w2 /\ sent w3 = sent w2)
      as [w3 [E3 [Hv3 Hs3]]] by (destruct success; simpl; eauto).
    unfold mbind at 1, M_bind at 1. rewrite E3.
    destruct (IH w3 (transport_failures_only_steady _ _ Hv3 Hw2))
      as [w' [E' [Hw' Hs']]].
    exists w'. split; [exact E' | split; [exact Hw' |]].
    rewrite Hs', Hs3, Hs2. cbn [sent fmap list_fmap].
    rewrite <- app_assoc. reflexivity.
Qed.

(** X12: the loop of the script captures every item, one request each and
    in the order of the list, and goes on after a failed capture: with
    transport failures only it always comes to its end. *)
Theorem capture_items_captures_every_item (items : list string) (w : world) :
  transport_failures_only w ->
  result (WorkingCapture.capture_items items) w = Return tt
  /\ body_field "content" <$> posted (WorkingCapture.capture_items items) w
     = (fun item => Some (VStr item)) <$> items
  /\ length (posted (WorkingCapture.capture_items items) w) = length items.
Proof.
  intros Hw. destruct (capture_items_run items w Hw) as [w' [E [_ Hs]]].
  unfold result, posted. rewrite E. cbn [fst snd]. rewrite Hs, drop_app_length.
  split; [reflexivity |]. rewrite length_fmap. split; [| reflexivity].
  rewrite <- list_fmap_compose. apply list_fmap_ext. intros i item _.
  unfold body_field, capture_request. cbn [compose rq_json].
  apply lookup_insert_eq.
Qed.

Lemma capture_items_captures_every_item_witness :
  body_field "content"
    <$> posted (WorkingCapture.capture_items WorkingCapture.test_items)
          (Scenario.always (Fails Scenario.refused))
  = [Some (VStr "Remember to check email");
     Some (VStr "[] Call the dentist");
     Some (VStr "[x] Finished the report");
     Some (VStr "TODO: Review quarterly goals")].
Proof.
  assert (transport_failures_only (Scenario.always (Fails Scenario.refused)))
    as H by (apply example_transport_failures_only; intros e [= <-]; reflexivity).
  destruct (capture_items_captures_every_item WorkingCapture.test_items _ H)
    as [_ [-> _]].
  reflexivity.
Defined.

Lemma bind_returns {A B : Type} (m : M A) (f : A -> M B) (w : world) (a : A)
    (w' : world) :
  m w = (Return a, w') -> (m ≫= f) w = f a w'.
Proof. intros H. unfold mbind, M_bind. rewrite H. reflexivity. Qed.

(** X13: the script of working-capture.py captures its four test items, in
    order and one request each, whatever fails on the way, and ends. *)
Theorem working_capture_script_captures_its_items (w : world) :
  transport_failures_only w ->
  result WorkingCapture.main w = Return tt
  /\ posted WorkingCapture.main w
     = (fun item =>
          capture_request "quick-capture-dev-key" "0bnt7oYu8zfqw09XRd3otDT8Fbo2"
            item "Inbox")
       <$> ["Remember to check email"; "[] Call the dentist";
            "[x] Finished the report"; "TODO: Review quarterly goals"].
Proof.
  intros Hw. unfold result, posted, WorkingCapture.main.
  rewrite !bind_print. cbn [service sent terminal].
  match goal with
  | |- context [World (service w) (sent w) ?t] =>
      assert (transport_failures_only (World (service w) (sent w) t)) as Hw1
        by exact Hw;
      destruct (capture_items_run WorkingCapture.test_items _ Hw1)
        as [w2 [E [_ Hs2]]]
  end.
  rewrite (bind_returns _ _ _ _ _ E), !bind_print.
  unfold print. cbn [fst snd sent].
  rewrite Hs2. cbn [sent]. rewrite drop_app_length. split; reflexivity.
Qed.

Lemma working_capture_script_captures_its_items_witness :
  result WorkingCapture.main (Scenario.always (Responds Scenario.bad_gateway_html))
  = Return tt.
Proof.
  assert (transport_failures_only
            (Scenario.always (Responds Scenario.bad_gateway_html)))
    as H by (apply example_transport_failures_only; discriminate).
  apply (working_capture_script_captures_its_items _ H).
Defined.

(** ** The script of quick-capture-client.py *)

(** X14: the script of quick-capture-client.py makes its four captures, in
    order and one request each, the first three to "Inbox" and the fourth
    to "Ideas", whatever fails on the way, and ends. *)
Theorem quick_capture_script_makes_four_captures (w : world) :
  transport_failures_only w ->
  result QuickCaptureClient.main w = Return tt
  /\ posted QuickCaptureClient.main w
     = [capture_request "quick-capture-dev-key" "YOUR_USER_ID"
          "Remember to review the quarterly report" "Inbox";
        capture_request "quick-capture-dev-key" "YOUR_USER_ID"
          "[] Call the dentist for appointment" "Inbox";
        capture_request "quick-capture-dev-key" "YOUR_USER_ID"
          "[x] Finished the presentation slides" "Inbox";
        capture_request "quick-capture-dev-key" "YOUR_USER_ID"
          "Project idea: AI-powered note-taking" "Ideas"].
Proof.
  intros Hw. unfold result, posted, QuickCaptureClient.main.
  rewrite !bind_print. cbn [service sent terminal].
  match goal with
  | |- context [World (service w) (sent w) ?t] =>
      assert (transport_failures_only (World (service w) (sent w) t)) as Hw0
        by exact Hw;
      destruct (send_to_notion_lite_step
                  "Remember to review the quarterly report" None _ Hw0)
        as [b1 [w1 [E1 [Hw1 Hs1]]]]
  end.
  destruct (send_to_notion_lite_step
              "[] Call the dentist for appointment" None _ Hw1)
    as [b2 [w2 [E2 [Hw2 Hs2]]]].
  destruct (send_to_notion_lite_step
              "[x] Finished the presentation slides" None _ Hw2)
    as [b3 [w3 [E3 [Hw3 Hs3]]]].
  destruct (send_to_notion_lite_step
              "Project idea: AI-powered note-taking" (Some "Ideas") _ Hw3)
    as [b4 [w4 [E4 [Hw4 Hs4]]]].
  rewrite (bind_returns _ _ _ _ _ E1), (bind_returns _ _ _ _ _ E2),
    (bind_returns _ _ _ _ _ E3), (bind_returns _ _ _ _ _ E4), !bind_print.
  unfold print. cbn [fst snd sent].
  rewrite Hs4, Hs3, Hs2, Hs1. cbn [sent default from_option id].
  rewrite <- !app_assoc. cbn [app]. rewrite drop_app_length. split; reflexivity.
Qed.

Lemma quick_capture_script_makes_four_captures_witness :
  result QuickCaptureClient.main (Scenario.always (Fails Scenario.refused))
  = Return tt.
Proof.
  assert (transport_failures_only (Scenario.always (Fails Scenario.refused)))
    as H by (apply example_transport_failures_only; intros e [= <-]; reflexivity).
  apply (quick_capture_script_makes_four_captures _ H).
Defined.

(** ** [run_all_tests] *)

Lemma test_api_status_frame (w : world) :
  exists o lines,
    TestCapture.test_api_status w
    = (o, World (service w)
            (sent w ++ [HttpRequest GET "http://localhost:3002/api/capture"
                          ∅ VNone true])
            (terminal w ++ lines)).
Proof.
  destruct (test_api_status_run w) as [k [hs [Hk [Hh [_ [_ ->]]]]]].
  rewrite try_get_run. cbv zeta. cbn [service sent terminal].
  destruct (service w (sent w) _) as [r | e].
  - destruct (plain_try_except _ hs (Hk r) Hh) as [o [lines ->]].
    cbn [service sent terminal]. rewrite <- app_assoc. eauto.
  - destruct (Hh e) as [o [lines ->]].
    cbn [service sent terminal]. rewrite <- app_assoc. eauto.
Qed.

(** X15: with the [USER_ID] left as it is in the script, [run_all_tests]
    never captures anything: whatever the service does, the only request it
    makes is the GET of the status check, and it stops either because the
    API is not accessible or because the user is not configured.  With
    transport failures only, it returns. *)
Theorem run_all_tests_only_checks_the_status
    (timestamp time_of_day : string) (w : world) :
  posted (TestCapture.run_all_tests timestamp time_of_day) w
    = [HttpRequest GET "http://localhost:3002/api/capture" ∅ VNone true]
  /\ (transport_failures_only w ->
      result (TestCapture.run_all_tests timestamp time_of_day) w = Return tt).
Proof.
  unfold result, posted, TestCapture.run_all_tests.
  rewrite !bind_print. cbn [service sent terminal].
  match goal with
  | |- context [World (service w) (sent w) ?t] =>
      destruct (test_api_status_frame (World (service w) (sent w) t))
        as [o [lines F]];
      pose proof (test_api_status_returns
                    (World (service w) (sent w) t)) as Hreturns
  end.
  cbn [service sent terminal] in F.
  destruct o as [accessible | e].
  - rewrite (bind_returns _ _ _ _ _ F).
    destruct accessible; cbn [negb];
      rewrite ?(bool_decide_eq_true_2 _ (eq_refl TestCapture.USER_ID));
      rewrite !bind_print; unfold print; cbn [fst snd sent];
      rewrite drop_app_length; auto.
  - unfold mbind, M_bind. rewrite F. cbn [fst snd sent].
    rewrite drop_app_length. split; [reflexivity |].
    intros Hw. destruct (Hreturns Hw) as [b [w' E]]. rewrite F in E.
    discriminate E.
Qed.

Lemma run_all_tests_only_checks_the_status_witness :
  result (TestCapture.run_all_tests "2025-01-01 09:30:00" "09:30")
    (Scenario.always (Responds Scenario.captured_without_ids))
  = Return tt.
Proof.
  assert (transport_failures_only
            (Scenario.always (Responds Scenario.captured_without_ids)))
    as H by (apply example_transport_failures_only; discriminate).
  apply (run_all_tests_only_checks_the_status "2025-01-01 09:30:00" "09:30" _), H.
Defined.

(** The loop over the test cases: one capture per case, in order; the
    count grows by one for each capture that returned [True]. *)
Lemma run_cases_run (total : Z) (cases : list string) (i success_count : Z)
    (w : world) :
  transport_failures_only w ->
  exists n w',
    TestCapture.run_cases total i cases success_count w = (Return n, w')
    /\ success_count <= n <= success_count + Z.of_nat (length cases)
    /\ sent w'
       = (sent w
          ++ ((fun content =>
                 capture_request "quick-capture-dev-key" "YOUR_USER_ID_HERE"
                   content "Inbox") <$> cases))%list.
Proof.
  revert i success_count w.
  induction cases as [| content cases IH]; intros i success_count w Hw.
  - exists success_count, w. simpl. rewrite app_nil_r. split; [reflexivity |].
    split; [lia | reflexivity].
  - cbn [TestCapture.run_cases]. rewrite bind_print.
    match goal with
    | |- context [World (service w) (sent w) ?t] =>
        assert (transport_failures_only (World (service w) (sent w) t)) as Hw1
          by exact Hw;
        destruct (test_capture_step content (Some (bool_decide (i = 1))) _ Hw1)
          as [passed [w2 [E [Hw2 Hs2]]]]
    end.
    rewrite (bind_returns _ _ _ _ _ E).
    destruct (IH (i + 1)
                (if passed then success_count + 1 else success_count) w2 Hw2)
      as [n [w' [E' [Hn Hs']]]].
    exists n, w'. split; [exact E' | split].
    + cbn [length]. destruct passed; lia.
    + rewrite Hs', Hs2. cbn [sent fmap list_fmap].
      rewrite <- app_assoc. reflexivity.
Qed.

(** X16: the loop of [run_all_tests] captures every test case, one request
    each and in the order of the list, and goes on after a failed capture:
    with transport failures only it always comes to its end, and the count
    of successes it gives lies between the count it started from and that
    count plus the number of cases. *)
Theorem run_cases_captures_every_case
    (total i success_count : Z) (cases : list string) (w : world) :
  transport_failures_only w ->
  exists n,
    result (TestCapture.run_cases total i cases success_count) w = Return n
    /\ success_count <= n <= success_count + Z.of_nat (length cases)
    /\ body_field "content"
         <$> posted (TestCapture.run_cases total i cases success_count) w
       = (fun content => Some (VStr content)) <$> cases.
Proof.
  intros Hw.
  destruct (run_cases_run total cases i success_count w Hw)
    as [n [w' [E [Hn Hs]]]].
  exists n. unfold result, posted. rewrite E. cbn [fst snd].
  rewrite Hs, drop_app_length. split; [reflexivity | split; [exact Hn |]].
  rewrite <- list_fmap_compose. apply list_fmap_ext. intros j content _.
  unfold body_field, capture_request. cbn [compose rq_json].
  apply lookup_insert_eq.
Qed.

Lemma run_cases_captures_every_case_witness :
  exists n,
    result (TestCapture.run_cases 6 1 (TestCapture.test_cases "09:30") 0)
      (Scenario.always (Fails Scenario.refused)) = Return n
    /\ 0 <= n <= 0 + Z.of_nat (length (TestCapture.test_cases "09:30"))
    /\ body_field "content"
         <$> posted (TestCapture.run_cases 6 1 (TestCapture.test_cases "09:30") 0)
               (Scenario.always (Fails Scenario.refused))
       = (fun content => Some (VStr content)) <$> TestCapture.test_cases "09:30".
Proof.
  assert (transport_failures_only (Scenario.always (Fails Scenario.refused)))
    as H by (apply example_transport_failures_only; intros e [= <-]; reflexivity).
  exact (run_cases_captures_every_case 6 1 0 (TestCapture.test_cases "09:30") _ H).
Defined.

Lemma always_answers_steady (w w' : world) (r : response) :
  service w' = service w -> always_answers w r -> always_answers w' r.
Proof. intros Hs Hw history rq. rewrite Hs. apply Hw. Qed.

Lemma always_fails_steady (w w' : world) (e : exc) :
  service w' = service w -> always_fails w e -> always_fails w' e.
Proof. intros Hs Hw history rq. rewrite Hs. apply Hw. Qed.

(** X17: the loop counts what passed.  When the service answers every
    request with status 200 and a JSON object, every case passes and the
    count grows by the number of cases; when every request fails in the
    transport, no case passes and the count stays what it was. *)
Theorem run_cases_counts_the_passes
    (total i success_count : Z) (cases : list string) (w : world) :
  (forall r d,
     always_answers w r -> status_code r = 200 ->
     json_outcome r = inr (VDict d) ->
     result (TestCapture.run_cases total i cases success_count) w
     = Return (success_count + Z.of_nat (length cases)))
  /\ (forall e,
        always_fails w e -> is_transport_failure e = true ->
        result (TestCapture.run_cases total i cases success_count) w
        = Return success_count).
Proof.
  split.
  - intros r d Hw Hs Hj. revert i success_count w Hw.
    induction cases as [| content cases IH]; intros i success_count w Hw.
    + unfold result. simpl. f_equal. lia.
    + unfold result. cbn [TestCapture.run_cases]. rewrite bind_print.
      match goal with
      | |- context [World (service w) (sent w) ?t] =>
          set (w1 := World (service w) (sent w) t)
      end.
      assert (answers w1 r) as Hr by (intros rq; apply Hw).
      pose proof (service_test_capture content (Some (bool_decide (i = 1))) w1)
        as Hservice.
      assert (result (TestCapture.test_capture content
                        (Some (bool_decide (i = 1)))) w1 = Return true) as Hok.
      { start_with Hr. unfold TestCapture.inspect, TestCapture.report.
        destruct (bool_decide (i = 1)); cbn [default from_option id];
          run; rewrite Hj; run; decide_status; try reflexivity;
          (destruct (d !! "debug") as [debug |];
           [reflexivity
           | match goal with H : is_Some None |- _ => destruct H as [? [=]] end]). }
      unfold result in Hok.
      destruct (TestCapture.test_capture content _ w1) as [o w2] eqn:E.
      cbn [fst snd] in Hok, Hservice. subst o.
      rewrite (bind_returns _ _ _ _ _ E).
      assert (always_answers w2 r) as Hw2
        by (apply (always_answers_steady w1); [exact Hservice | exact Hw]).
      specialize (IH (i + 1) (success_count + 1) w2 Hw2).
      unfold result in IH. rewrite IH. cbn [length]. f_equal. lia.
  - intros e Hw Ht. pose proof (transport_failure_is_Exception _ Ht) as Hexc.
    revert i success_count w Hw.
    induction cases as [| content cases IH]; intros i success_count w Hw.
    + reflexivity.
    + unfold result. cbn [TestCapture.run_cases]. rewrite bind_print.
      match goal with
      | |- context [World (service w) (sent w) ?t] =>
          set (w1 := World (service w) (sent w) t)
      end.
      assert (fails_with w1 e) as Hf by (intros rq; apply Hw).
      pose proof (service_test_capture content (Some (bool_decide (i = 1))) w1)
        as Hservice.
      assert (result (TestCapture.test_capture content
                        (Some (bool_decide (i = 1)))) w1 = Return false) as Hfail.
      { start_with Hf. unfold TestCapture.on_failure. cbn [dispatch].
        rewrite Hexc. destruct (is_ConnectionError e); reflexivity. }
      unfold result in Hfail.
      destruct (TestCapture.test_capture content _ w1) as [o w2] eqn:E.
      cbn [fst snd] in Hfail, Hservice. subst o.
      rewrite (bind_returns _ _ _ _ _ E).
      assert (always_fails w2 e) as Hw2
        by (apply (always_fails_steady w1); [exact Hservice | exact Hw]).
      specialize (IH (i + 1) success_count w2 Hw2).
      unfold result in IH. exact IH.
Qed.

Lemma run_cases_counts_the_passes_witness :
  result (TestCapture.run_cases 6 1 (TestCapture.test_cases "09:30") 0)
      (Scenario.always (Responds Scenario.captured))
    = Return 6
  /\ result (TestCapture.run_cases 6 1 (TestCapture.test_cases "09:30") 0)
       (Scenario.always (Fails Scenario.refused))
     = Return 0.
Proof.
  split.
  - apply (proj1 (run_cases_counts_the_passes 6 1 0
                    (TestCapture.test_cases "09:30") _)
             Scenario.captured Scenario.ids_body);
      [intros history rq; reflexivity | reflexivity | reflexivity].
  - apply (proj2 (run_cases_counts_the_passes 6 1 0
                    (TestCapture.test_cases "09:30") _)
             Scenario.refused);
      [intros history rq; reflexivity | reflexivity].
Defined.

(** ** What is shown of the content *)

Lemma len_slice_to (n : nat) (s : string) : len (slice_to n s) <= Z.of_nat n.
Proof.
  revert n. induction s as [| a s IH]; intros n; simpl; [lia |].
  destruct (is_continuation a) eqn:Ha; simpl.
  - rewrite Ha. specialize (IH n). lia.
  - destruct n as [| n]; simpl; [lia |]. rewrite Ha. specialize (IH n). lia.
Qed.

Lemma slice_to_prefix (n : nat) (s : string) :
  exists rest, s = slice_to n s +:+ rest.
Proof.
  revert n. induction s as [| a s IH]; intros n; simpl.
  - exists EmptyString. reflexivity.
  - destruct (is_continuation a).
    + destruct (IH n) as [rest Hrest]. exists rest.
        change (String a s = String a (slice_to n s +:+ rest)).
        f_equal. exact Hrest.
    + destruct n as [| n].
      * exists (String a s). reflexivity.
      * destruct (IH n) as [rest Hrest]. exists rest.
        change (String a s = String a (slice_to n s +:+ rest)).
        f_equal. exact Hrest.
Qed.

Lemma slice_to_all (n : nat) (s : string) :
  len s <= Z.of_nat n -> slice_to n s = s.
Proof.
  revert n. induction s as [| a s IH]; intros n; simpl; [reflexivity |].
  pose proof (len_nonnegative s) as Hs.
  destruct (is_continuation a) eqn:Ha.
  - intros H. rewrite IH by lia. reflexivity.
  - destruct n as [| n]; [lia |]. intros H. rewrite IH by lia. reflexivity.
Qed.

Lemma len_slice_to_min (n : nat) (s : string) :
  len (slice_to n s) = Z.min (Z.of_nat n) (len s).
Proof.
  revert n. induction s as [| a s IH]; intros n; simpl; [lia |].
  pose proof (len_nonnegative s) as Hs.
  destruct (is_continuation a) eqn:Ha; simpl.
  - rewrite Ha. specialize (IH n). lia.
  - destruct n as [| n]; simpl; [lia |]. rewrite Ha. specialize (IH n). lia.
Qed.

(** X18: after a successful capture [send_to_notion_lite] prints one line,
    which shows [content[:50]]: the prefix of the content that has its
    first 50 characters, or all of them when there are fewer; the request
    carries the content in full. *)
Theorem content_is_cut_on_the_terminal_only
    (content : string) (page_title : option string) (w : world) (r : response)
    (v : value) :
  answers w r -> status_code r = 200 -> json_outcome r = inr v ->
  printed (QuickCaptureClient.send_to_notion_lite content page_title) w
    = [Stdout [Lit "✓ Captured to "; FStr (default "Inbox" page_title);
               Lit ": "; FStr (slice_to 50 content); Lit "..."]]
  /\ (exists rest, content = slice_to 50 content +:+ rest)
  /\ len (slice_to 50 content) = Z.min 50 (len content)
  /\ (len content <= 50 -> slice_to 50 content = content)
  /\ body_field "content"
       <$> posted (QuickCaptureClient.send_to_notion_lite content page_title) w
     = [Some (VStr content)].
Proof.
  intros Hr Hs Hj. split; [| split; [| split; [| split]]].
  - start_with Hr. run. decide_status. rewrite Hj. run. read_terminal.
  - apply slice_to_prefix.
  - apply (len_slice_to_min 50).
  - apply (slice_to_all 50).
  - rewrite (posted_of_sent _ _ _ (sent_send_to_notion_lite content page_title w)).
    unfold body_field. cbn [fmap list_fmap rq_json].
    rewrite lookup_insert_eq. reflexivity.
Qed.

Lemma content_is_cut_on_the_terminal_only_witness :
  printed (QuickCaptureClient.send_to_notion_lite
             "Project idea: AI-powered note-taking for people who think in outlines"
             (Some "Ideas"))
    (Scenario.always (Responds Scenario.captured))
  = [Stdout [Lit "✓ Captured to "; FStr "Ideas"; Lit ": ";
             FStr "Project idea: AI-powered note-taking for people wh";
             Lit "..."]].
Proof.
  destruct (content_is_cut_on_the_terminal_only
              "Project idea: AI-powered note-taking for people who think in outlines"
              (Some "Ideas") _ _ _
              (example_replies (Responds Scenario.captured)) eq_refl eq_refl)
    as [H _].
  exact H.
Defined.

(** * A terminal that may refuse a line, a wire that shows redirects *)

Lemma try_bind_cases {A B : Type} (m : M A) (k : A -> M B) (hs : clauses B)
    (w : world) :
  try_except (m ≫= k) hs w
  = match m w with
    | (Return a, w') => try_except (k a) hs w'
    | (Raise e, w') => dispatch hs e w'
    end.
Proof.
  unfold try_except, mbind, M_bind. destruct (m w) as [[a | e] w']; reflexivity.
Qed.


(** ** One call on the wire *)


(** What a call raises is what the remote end failed with, or
    [TooManyRedirects]. *)
Lemma follow_raises (env : Live.environment)
    (remote : list http_request -> http_request -> reply) (redirects_left : nat)
    (wire : list http_request) (rq : http_request) (e : exc) :
  (forall history rq' e',
     remote history rq' = Fails e' -> is_transport_failure e' = true) ->
  fst (Live.follow env remote redirects_left wire rq) = Raise e ->
  is_Exception e = true.
Proof.
  intros Hremote. revert wire rq.
  induction redirects_left as [| n IH]; intros wire rq; simpl;
    destruct (remote wire rq) as [r | e'] eqn:E; simpl;
    try (intros [= <-]; apply transport_failure_is_Exception;
         exact (Hremote _ _ _ E)).
  - destruct (rq_allow_redirects rq);
      [destruct (Live.location env rq r) as [url |] |];
      [destruct (Live.is_redirect (status_code r)) | |]; simpl;
      intros [= <-] || discriminate; reflexivity.
  - destruct (rq_allow_redirects rq);
      [destruct (Live.location env rq r) as [url |] |];
      [destruct (Live.is_redirect (status_code r)) | |]; simpl;
      first [apply IH | discriminate].
Qed.

(** ** [print] on a terminal that may refuse *)

Lemma quiet_live_print (env : Live.environment) (line : list piece) :
  quiet (Live.print env line).
Proof.
  intros w. unfold Live.print.
  destruct (Live.console env (terminal w) line); simpl.
  - split; [reflexivity |]. exists []. symmetry. apply app_nil_r.
  - split; [reflexivity |]. eexists. reflexivity.
Qed.

Lemma raises_only_live_print (P : exc -> bool) (env : Live.environment)
    (line : list piece) :
  accepts_everything env -> raises_only P (Live.print env line).
Proof.
  intros Ha w e w'. unfold Live.print. rewrite Ha. discriminate.
Qed.

Lemma live_print_accepted {B : Type} (env : Live.environment)
    (line : list piece) (f : unit -> M B) (w : world) :
  Live.console env (terminal w) line = None ->
  (Live.print env line ≫= f) w
  = f tt (World (service w) (sent w) (terminal w ++ [Stdout line])).
Proof. intros H. unfold mbind, M_bind, Live.print. rewrite H. reflexivity. Qed.

#[local] Hint Resolve quiet_live_print : quiet.
#[local] Hint Resolve raises_only_live_print : raising.

(** ** A [try] around a call on the wire *)


(** When the terminal takes every line and failures are transport failures,
    such a [try] returns if its clauses handle every [Exception]. *)
Lemma try_live_post_returns {A : Type} (env : Live.environment) (url : string)
    (headers : gmap string string) (json : value) (redirects : bool)
    (k : response -> M A) (hs : clauses A) (w : world) :
  transport_failures_only w ->
  (forall r, raises_only is_Exception (k r)) ->
  (forall e, is_Exception e = true -> never_raises (dispatch hs e)) ->
  exists a w',
    try_except (Live.requests_post env url headers json redirects ≫= k) hs w
    = (Return a, w').
Proof.
  intros Hw Hk Hh. rewrite try_bind_cases. unfold Live.requests_post.
  cbv zeta.
  pose proof (follow_raises env (service w) Live.max_redirects (sent w)
                (HttpRequest POST url headers json redirects)) as Hraise.
  destruct (Live.follow _ _ _ _ _) as [[r | e] wire]; cbn [fst snd] in *.
  - apply (try_except_returns is_Exception); auto.
  - apply Hh. apply (Hraise e); [exact Hw | reflexivity].
Qed.

Ltac run_live Ha :=
  repeat (unfold try_except, try_except_else, mbind, M_bind, mret, M_ret,
            Live.print, print, print_exc, raise in *;
          rewrite ?Ha;
          cbn [dispatch fst snd service sent terminal is_Exception
               is_ConnectionError is_BaseException exc_cls exc_str] in *).

Lemma quiet_live_report (env : Live.environment) (r : response) (data : value)
    (show_details : bool) :
  quiet (Live.TestCapture.report env r data show_details).
Proof. unfold Live.TestCapture.report. quiet_solver. Qed.



Lemma raises_only_live_inspect (env : Live.environment) (r : response)
    (show_details : bool) :
  accepts_everything env ->
  raises_only is_Exception (Live.TestCapture.inspect env r show_details).
Proof.
  intros Ha. unfold Live.TestCapture.inspect, Live.TestCapture.report.
  raising_solver.
Qed.

Lemma live_on_failure_returns (env : Live.environment) (e : exc) :
  accepts_everything env -> is_Exception e = true ->
  never_raises (dispatch (Live.TestCapture.on_failure env) e).
Proof.
  intros Ha He w. unfold Live.TestCapture.on_failure. cbn [dispatch].
  rewrite He. destruct (is_ConnectionError e); run_live Ha; eauto.
Qed.

(** When the terminal takes the lines of the announcement, [test_capture]
    reaches its [try] with those lines printed. *)
Lemma live_announce_accepted (env : Live.environment) (content : string)
    (show_details : option bool) (w : world) :
  accepts env (terminal w) (announced content show_details) ->
  Live.TestCapture.announce env content (default true show_details) w
  = (Return tt,
     World (service w) (sent w)
       (terminal w ++ announced content show_details)).
Proof.
  unfold announced, Live.TestCapture.announce.
  destruct (default true show_details); cbn [accepts]; cbv zeta;
    unfold mbind, M_bind, mret, M_ret, Live.print.
  - intros [H1 [H2 [H3 [H4 _]]]].
    repeat match goal with
           | |- context [Live.console env ?t ?l] =>
               replace (Live.console env t l) with (@None exc)
                 by (symmetry;
                     first [exact H1 | exact H2 | exact H3 | exact H4]);
               cbn [service sent terminal]
           end.
    rewrite <- !app_assoc. reflexivity.
  - intros [H1 _].
    repeat match goal with
           | |- context [Live.console env ?t ?l] =>
               replace (Live.console env t l) with (@None exc)
                 by (symmetry; exact H1);
               cbn [service sent terminal]
           end.
    reflexivity.
Qed.

Lemma accepts_everything_accepts (env : Live.environment)
    (history lines : list output) :
  accepts_everything env -> accepts env history lines.
Proof.
  intros Ha. revert history.
  induction lines as [| [line | e] lines IH]; intros history; simpl; auto.
Qed.


Lemma live_print_keeps_service {B : Type} (env : Live.environment)
    (line : list piece) (w : world) :
  service (snd (Live.print env line w)) = service w.
Proof.
  unfold Live.print. destruct (Live.console env (terminal w) line); reflexivity.
Qed.


(** ** The functions above are the functions of [Live] in a calm
    environment *)

Lemma live_requests_post_calm (url : string) (headers : gmap string string)
    (json : value) (redirects : bool) (w : world) :
  Live.requests_post Live.calm url headers json redirects w
  = requests_post url headers json redirects w.
Proof.
  unfold Live.requests_post, requests_post. cbv zeta.
  unfold Live.max_redirects. cbn [Live.follow].
  destruct (service w (sent w) _) as [r | e]; cbn [rq_allow_redirects];
    [destruct redirects |]; reflexivity.
Qed.

Lemma calm_accepts_everything : accepts_everything Live.calm.
Proof. intros history line. reflexivity. Qed.

Lemma live_agrees_when_calm (content : string) (page_title : option string)
    (show_details : option bool) (w : world) :
  Live.QuickCaptureClient.send_to_notion_lite Live.calm content page_title w
    = QuickCaptureClient.send_to_notion_lite content page_title w
  /\ Live.WorkingCapture.capture_to_notion_lite Live.calm content w
     = WorkingCapture.capture_to_notion_lite content w
  /\ Live.TestCapture.test_capture Live.calm content show_details w
     = TestCapture.test_capture content show_details w.
Proof.
  split; [| split].
  - unfold Live.QuickCaptureClient.send_to_notion_lite,
      QuickCaptureClient.send_to_notion_lite.
    rewrite !try_bind_cases, live_requests_post_calm. reflexivity.
  - unfold Live.WorkingCapture.capture_to_notion_lite,
      WorkingCapture.capture_to_notion_lite.
    rewrite !try_bind_cases, live_requests_post_calm. reflexivity.
  - rewrite test_capture_run. unfold Live.TestCapture.test_capture. cbv zeta.
    rewrite (bind_returns _ _ _ _ _
               (live_announce_accepted Live.calm content show_details w
                  (accepts_everything_accepts _ _ _ calm_accepts_everything))).
    rewrite try_bind_cases, live_requests_post_calm. unfold requests_post.
    cbn [service sent terminal].
    destruct (service w (sent w) _) as [r | e]; reflexivity.
Qed.

(** ** The contract on the terminal and on the wire *)

(** C1, as the code has it: whatever the content and the page title, and
    whatever the outcome of the HTTP call (a response with any status code
    and any body, redirects included, or an exception of the transport
    layer), each of [send_to_notion_lite], [capture_to_notion_lite] and
    [test_capture] returns a value to its caller, provided the terminal
    takes every line the function prints.  (A [print] that fails is not
    guarded: see [a_refused_print_leaves_the_call].) *)
Theorem capture_functions_return_when_prints_succeed
    (env : Live.environment) (content : string) (page_title : option string)
    (show_details : option bool) (w : world) :
  transport_failures_only w -> accepts_everything env ->
  (exists b w',
     Live.QuickCaptureClient.send_to_notion_lite env content page_title w
     = (Return b, w'))
  /\ (exists p w',
        Live.WorkingCapture.capture_to_notion_lite env content w
        = (Return p, w'))
  /\ (exists b w',
        Live.TestCapture.test_capture env content show_details w
        = (Return b, w')).
Proof.
  intros Hw Ha. split; [| split].
  - unfold Live.QuickCaptureClient.send_to_notion_lite.
    apply try_live_post_returns; [exact Hw | raising_solver |].
    intros e He w1. cbn [dispatch]. rewrite He. run_live Ha. eauto.
  - unfold Live.WorkingCapture.capture_to_notion_lite.
    apply try_live_post_returns; [exact Hw | raising_solver |].
    intros e He w1. cbn [dispatch]. rewrite He. run_live Ha. eauto.
  - unfold Live.TestCapture.test_capture. cbv zeta.
    rewrite (bind_returns _ _ _ _ _
               (live_announce_accepted env content show_details w
                  (accepts_everything_accepts _ _ _ Ha))).
    apply try_live_post_returns.
    + exact Hw.
    + intros r. apply raises_only_live_inspect, Ha.
    + intros e He. apply live_on_failure_returns; assumption.
Qed.

Lemma capture_functions_return_when_prints_succeed_witness :
  transport_failures_only (Scenario.always (Responds Scenario.temporary_redirect))
  /\ accepts_everything Scenario.redirecting
  /\ (exists b w',
        Live.QuickCaptureClient.send_to_notion_lite Scenario.redirecting
          "[] Call the dentist" None
          (Scenario.always (Responds Scenario.temporary_redirect))
        = (Return b, w'))
  /\ (exists p w',
        Live.WorkingCapture.capture_to_notion_lite Scenario.redirecting
          "[] Call the dentist"
          (Scenario.always (Responds Scenario.temporary_redirect))
        = (Return p, w'))
  /\ (exists b w',
        Live.TestCapture.test_capture Scenario.redirecting
          "[] Call the dentist" None
          (Scenario.always (Responds Scenario.temporary_redirect))
        = (Return b, w')).
Proof.
  assert (H : transport_failures_only
                (Scenario.always (Responds Scenario.temporary_redirect)))
    by (intros history rq e; discriminate).
  assert (Ha : accepts_everything Scenario.redirecting)
    by (intros history line; reflexivity).
  split; [exact H | split; [exact Ha |]].
  exact (capture_functions_return_when_prints_succeed Scenario.redirecting
           "[] Call the dentist" None None _ H Ha).
Defined.

(** Against C1 as stated: on a terminal whose encoding is ASCII the
    exception of a refused [print] leaves all three functions, although the
    service answers with status 200 and a JSON object.  [test_capture]
    prints before its [try]; in the other two the [print] inside the [try]
    fails, the handler catches that, and the [print] of the handler fails
    in turn. *)
Lemma a_refused_print_leaves_the_call :
  result (Live.TestCapture.test_capture Scenario.ascii_terminal "note" None)
      (Scenario.always (Responds Scenario.captured))
    = Raise (Exc UnicodeEncodeError
               "'ascii' codec can't encode character: ordinal not in range(128)")
  /\ result (Live.QuickCaptureClient.send_to_notion_lite
               Scenario.ascii_terminal "note" None)
       (Scenario.always (Responds Scenario.captured))
     = Raise (Exc UnicodeEncodeError
                "'ascii' codec can't encode character: ordinal not in range(128)")
  /\ result (Live.WorkingCapture.capture_to_notion_lite
               Scenario.ascii_terminal "note")
       (Scenario.always (Responds Scenario.captured))
     = Raise (Exc UnicodeEncodeError
                "'ascii' codec can't encode character: ordinal not in range(128)").
Proof. repeat split; reflexivity. Qed.



